(** * Smart UAE agent: the tool layer

    A shallow embedding of the two tool modules of the repository,
    [smart_uae_agent/tools.py] (module [Tools] below) and
    [smart_uae_agent/tools.fixed.py] (module [Fixed] below), together with
    the small part of the Python runtime they rely on: strings, JSON
    values, exceptions, dictionaries with identity, and the binary64
    product behind [math.ceil(subtotal * 1.10)].  Around them: the
    loaders of [llm_provider.py] (module [LlmProvider]), what the
    sidebar of [app_streamlit.py] writes (module [App]), and the menu
    look-ups of [smartcafe_assistant.py] (module [SmartCafe]).

    Conventions.
    - A tool returns [json.dumps(payload)]; the embedding returns the
      payload itself, the dictionary handed to [json.dumps].
    - Strings are sequences of ASCII characters: [lower], [title] and
      [strip] act on the ASCII letters and the ASCII white space.
    - A Python computation that may raise lives in the monad [res];
      [try ... except Exception] is [try_except]. *)

From Stdlib Require Import ZArith String Ascii List Bool Lia.
From stdpp Require Import base option list gmap strings.

Local Open Scope string_scope.
Local Open Scope Z_scope.
Local Set Warnings "-register-all".

(** ** Python strings *)

Module PyStr.

Definition code (c : ascii) : nat := nat_of_ascii c.

Definition isupper (c : ascii) : bool :=
  (65 <=? code c)%nat && (code c <=? 90)%nat.

Definition islower (c : ascii) : bool :=
  (97 <=? code c)%nat && (code c <=? 122)%nat.

Definition to_lower (c : ascii) : ascii :=
  if isupper c then ascii_of_nat (code c + 32) else c.

Definition to_upper (c : ascii) : ascii :=
  if islower c then ascii_of_nat (code c - 32) else c.

(** [str.isspace] on the ASCII range: TAB, LF, VT, FF, CR, FS, GS, RS,
    US and the space. *)
Definition isspace (c : ascii) : bool :=
  ((9 <=? code c)%nat && (code c <=? 13)%nat)
  || ((28 <=? code c)%nat && (code c <=? 32)%nat).

(** [s.lower()] *)
Fixpoint lower (s : string) : string :=
  match s with
  | EmptyString => EmptyString
  | String c s' => String (to_lower c) (lower s')
  end.

Fixpoint lstrip (s : string) : string :=
  match s with
  | EmptyString => EmptyString
  | String c s' => if isspace c then lstrip s' else s
  end.

Fixpoint rstrip (s : string) : string :=
  match s with
  | EmptyString => EmptyString
  | String c s' =>
      match rstrip s' with
      | EmptyString => if isspace c then EmptyString else String c EmptyString
      | r => String c r
      end
  end.

(** [s.strip()] *)
Definition strip (s : string) : string := rstrip (lstrip s).

(** [s.title()]: a cased character is upper-cased when the character
    before it is not cased, and lower-cased otherwise. *)
Fixpoint title_from (prev_cased : bool) (s : string) : string :=
  match s with
  | EmptyString => EmptyString
  | String c s' =>
      if islower c then
        String (if prev_cased then c else to_upper c) (title_from true s')
      else if isupper c then
        String (if prev_cased then to_lower c else c) (title_from true s')
      else String c (title_from false s')
  end.

Definition title (s : string) : string := title_from false s.

(** [needle in hay] on two strings *)
Fixpoint contains (needle hay : string) : bool :=
  String.prefix needle hay
  || match hay with
     | EmptyString => false
     | String _ hay' => contains needle hay'
     end.

(** [any(k in q for k in kws)] *)
Definition any_in (kws : list string) (q : string) : bool :=
  existsb (fun k => contains k q) kws.

(** [s.split(sep)] for a one-character separator *)
Fixpoint split (sep : ascii) (s : string) : list string :=
  match s with
  | EmptyString => [EmptyString]
  | String c s' =>
      match split sep s' with
      | hd :: tl =>
          if Ascii.eqb c sep then EmptyString :: hd :: tl
          else String c hd :: tl
      | [] => [String c EmptyString]
      end
  end.

(** truth value of a string: [bool(s)] *)
Definition truthy (s : string) : bool :=
  match s with EmptyString => false | _ => true end.

(** [sep.join(parts)] on a list of strings *)
Fixpoint join (sep : string) (parts : list string) : string :=
  match parts with
  | [] => EmptyString
  | [p] => p
  | p :: rest => p +:+ sep +:+ join sep rest
  end.

(** Every character of [s] is white space: [s.strip() == ""]. *)
Fixpoint blank (s : string) : bool :=
  match s with
  | EmptyString => true
  | String c s' => isspace c && blank s'
  end.

End PyStr.

(** ** Exceptions and the result monad *)

Inductive exn : Type :=
| KeyError (key : string)
| TypeError
| AttributeError
| ValueError
| OverflowError
| JSONDecodeError
| RequestException (msg : string).

Inductive res (A : Type) : Type :=
| Ok (a : A)
| Raise (e : exn).
Arguments Ok {A} a.
Arguments Raise {A} e.

Definition bind {A B} (m : res A) (k : A -> res B) : res B :=
  match m with
  | Ok a => k a
  | Raise e => Raise e
  end.

Notation "x <- m ;; k" := (bind m (fun x => k))
  (at level 100, m at next level, right associativity).

(** [try: body  except Exception as e: handler e] *)
Definition try_except {A} (body : res A) (handler : exn -> res A) : res A :=
  match body with
  | Ok a => Ok a
  | Raise e => handler e
  end.

Definition returns {A} (m : res A) : Prop := exists a, m = Ok a.

(** ** Binary64 arithmetic behind [subtotal * 1.10] and [math.ceil] *)

Module Binary64.

(** A finite double is [m * 2^e]. *)
Record finite : Type := Finite { mant : Z; expo : Z }.

(** The result of an operation: a finite double, or an infinity (the
    only non-finite value the product of two finite doubles of
    magnitude at least 1 can reach). *)
Inductive float : Type :=
| Fin (x : finite)
| Inf (negative : bool).

(** The nearest integer to [n >= 0] that has at most 53 significant
    bits, ties going to the even significand. *)
Definition round53 (n : Z) : Z :=
  let sh := Z.log2 n - 52 in
  if sh <=? 0 then n
  else
    let q := Z.shiftr n sh in
    let r := Z.land n (Z.ones sh) in
    let half := Z.shiftl 1 (sh - 1) in
    let up := (half <? r) || ((r =? half) && Z.odd q) in
    Z.shiftl (if up then q + 1 else q) sh.

(** [m * 2^e >= 2^1024], for [m >= 0] *)
Definition overflows (m e : Z) : bool :=
  if 0 <=? e then 2 ^ 1024 <=? m * 2 ^ e
  else 2 ^ 1024 * 2 ^ (- e) <=? m.

(** [float(n)] for a Python int: correctly rounded, and
    [OverflowError] when the int is too large for a double. *)
Definition of_int (n : Z) : res finite :=
  let a := round53 (Z.abs n) in
  if overflows a 0 then Raise OverflowError
  else Ok (Finite (Z.sgn n * a) 0).

(** [x * y] on finite doubles: the exact product, rounded.  The
    operands met here are an integer and 1.10, so the product is zero
    or at least 1 in magnitude and the subnormal range is never
    entered. *)
Definition mul (x y : finite) : float :=
  let p := mant x * mant y in
  let e := expo x + expo y in
  let a := round53 (Z.abs p) in
  if overflows a e then Inf (p <? 0)
  else Fin (Finite (Z.sgn p * a) e).

(** [math.ceil(x)]: an int, or [OverflowError] on an infinity. *)
Definition ceil (x : float) : res Z :=
  match x with
  | Fin (Finite m e) =>
      if 0 <=? e then Ok (m * 2 ^ e)
      else Ok (- ((- m) / 2 ^ (- e)))
  | Inf _ => Raise OverflowError
  end.

(** The literal [1.10]: 0x1.199999999999ap+0. *)
Definition lit_1_10 : finite := Finite 4953959590107546 (-52).

(** [math.ceil(n * 1.10)] for a Python int [n] *)
Definition ceil_mul_1_10 (n : Z) : res Z :=
  x <- of_int n ;; ceil (mul x lit_1_10).

End Binary64.

(** ** JSON values and the dictionary operations used on them *)

(** What [json.load] and [resp.json()] produce.  An object keeps its
    keys in document order, as a Python [dict] does; numbers are the
    integers (no tool inspects a fractional number). *)
Inductive json : Type :=
| JNull
| JBool (b : bool)
| JNum (n : Z)
| JStr (s : string)
| JArr (xs : list json)
| JObj (kvs : list (string * json)).

Module Py.

(** The binding of [k] in a dictionary given by its items. *)
Fixpoint assoc {V} (k : string) (kvs : list (string * V)) : option V :=
  match kvs with
  | [] => None
  | (k', v) :: kvs' => if String.eqb k k' then Some v else assoc k kvs'
  end.

(** [tbl[k]] on a literal table *)
Definition subscript {V} (tbl : list (string * V)) (k : string) : res V :=
  match assoc k tbl with
  | Some v => Ok v
  | None => Raise (KeyError k)
  end.

(** [bool(x)] *)
Definition truthy (x : json) : bool :=
  match x with
  | JNull => false
  | JBool b => b
  | JNum n => negb (n =? 0)
  | JStr s => PyStr.truthy s
  | JArr xs => match xs with [] => false | _ => true end
  | JObj kvs => match kvs with [] => false | _ => true end
  end.

(** [d.get(k, default)]: only a dict has [get]. *)
Definition get (d : json) (k : string) (default : json) : res json :=
  match d with
  | JObj kvs => Ok (from_option id default (assoc k kvs))
  | _ => Raise AttributeError
  end.

(** [d[k]] with a string [k] *)
Definition getitem (d : json) (k : string) : res json :=
  match d with
  | JObj kvs =>
      match assoc k kvs with
      | Some v => Ok v
      | None => Raise (KeyError k)
      end
  | _ => Raise TypeError
  end.

Definition is_str (k : string) (x : json) : bool :=
  match x with JStr s => String.eqb s k | _ => false end.

(** [k in c] with a string [k]: key membership on a dict, element
    membership on a list, substring on a string. *)
Definition contains (k : string) (c : json) : res bool :=
  match c with
  | JObj kvs => Ok (bool_decide (is_Some (assoc k kvs)))
  | JArr xs => Ok (existsb (is_str k) xs)
  | JStr s => Ok (PyStr.contains k s)
  | _ => Raise TypeError
  end.

(** [d.keys()] and [d.items()] *)
Definition keys (d : json) : res (list string) :=
  match d with
  | JObj kvs => Ok (map fst kvs)
  | _ => Raise AttributeError
  end.

Definition items (d : json) : res (list (string * json)) :=
  match d with
  | JObj kvs => Ok kvs
  | _ => Raise AttributeError
  end.

Fixpoint chars (s : string) : list json :=
  match s with
  | EmptyString => []
  | String c s' => JStr (String c EmptyString) :: chars s'
  end.

(** What iterating over [c] yields: the elements of a list, the keys
    of a dict, the characters of a string. *)
Definition iter (c : json) : res (list json) :=
  match c with
  | JArr xs => Ok xs
  | JObj kvs => Ok (map (fun kv => JStr (fst kv)) kvs)
  | JStr s => Ok (chars s)
  | _ => Raise TypeError
  end.

Definition hashable (x : json) : bool :=
  match x with
  | JArr _ | JObj _ => false
  | _ => true
  end.

(** Equality of two hashable values as dictionary keys: [True == 1]. *)
Definition key_eqb (x y : json) : bool :=
  match x, y with
  | JNull, JNull => true
  | JStr s, JStr t => String.eqb s t
  | JBool a, JBool b => Bool.eqb a b
  | JNum a, JNum b => a =? b
  | JBool a, JNum b | JNum b, JBool a => b =? (if a then 1 else 0)
  | _, _ => false
  end.

(** [list(dict.fromkeys(xs))]: the first occurrence of each element,
    in order; [TypeError] on an unhashable element. *)
Fixpoint fromkeys (xs : list json) : res (list json) :=
  match xs with
  | [] => Ok []
  | x :: xs' =>
      if hashable x then
        rest <- fromkeys xs' ;;
        Ok (x :: filter (fun y => negb (key_eqb x y)) rest)
      else Raise TypeError
  end.

(** [xs[:k]]: the first [k] elements, or all but the last [-k] when
    [k] is negative. *)
Definition slice_to {A} (k : Z) (xs : list A) : list A :=
  if 0 <=? k then take (Z.to_nat k) xs
  else take (List.length xs - Z.to_nat (- k)) xs.

(** The elements handed to [str.join]: each must be a string. *)
Fixpoint strings_of (xs : list json) : res (list string) :=
  match xs with
  | [] => Ok []
  | JStr s :: xs' => rest <- strings_of xs' ;; Ok (s :: rest)
  | _ :: _ => Raise TypeError
  end.

(** [sep.join(x)] *)
Definition join (sep : string) (x : json) : res string :=
  xs <- iter x ;;
  parts <- strings_of xs ;;
  Ok (PyStr.join sep parts).

End Py.

(** ** Objects with identity: the preference dictionaries *)

(** A stored value is an immediate value or a reference to a heap
    object; dictionaries and lists are heap objects, so that two names
    for one dictionary can be told from a dictionary and its copy. *)
Definition loc := positive.

Inductive val : Type :=
| VNone
| VBool (b : bool)
| VInt (n : Z)
| VStr (s : string)
| VRef (l : loc).

Inductive obj : Type :=
| ODict (d : gmap string val)
| OList (xs : list val).

Abbreviation heap := (gmap loc obj).

Module Heap.

(** The dictionary held at [l]. *)
Definition dict_of (h : heap) (l : loc) : gmap string val :=
  match h !! l with
  | Some (ODict d) => d
  | _ => ∅
  end.

(** Allocation of a new object: a location not in use. *)
Definition alloc (o : obj) (h : heap) : loc * heap :=
  let l := fresh (dom h) in (l, <[l := o]> h).

(** [dict(d)]: a new dictionary with the entries of the one at [l]. *)
Definition copy_dict (l : loc) (h : heap) : loc * heap :=
  alloc (ODict (dict_of h l)) h.

(** The mutations a holder of a reference to a dictionary can apply
    to it: [d[k] = v], [del d[k]] / [d.pop(k, None)], [d.clear()],
    [d.update(other)]. *)
Inductive dict_op : Type :=
| SetItem (k : string) (v : val)
| DelItem (k : string)
| Clear
| Update (other : gmap string val).

Definition apply_op (op : dict_op) (d : gmap string val) : gmap string val :=
  match op with
  | SetItem k v => <[k := v]> d
  | DelItem k => delete k d
  | Clear => ∅
  | Update other => other ∪ d
  end.

(** One mutation applied through the reference [l]. *)
Definition mutate (l : loc) (op : dict_op) (h : heap) : heap :=
  match h !! l with
  | Some (ODict d) => <[l := ODict (apply_op op d)]> h
  | _ => h
  end.

Definition mutate_all (l : loc) (ops : list dict_op) (h : heap) : heap :=
  foldl (fun h' op => mutate l op h') h ops.

(** [xs.append(v)] through a reference to a list *)
Definition list_append (l : loc) (v : val) (h : heap) : heap :=
  match h !! l with
  | Some (OList xs) => <[l := OList (xs ++ [v])%list]> h
  | _ => h
  end.

End Heap.

(** ** The outside world: the HTTP service and the clock *)

(** A GET request as [requests.get(url, params=..., timeout=...)] sends
    it. *)
Record request : Type := Request {
  url : string;
  params : list (string * json);
  timeout : Z
}.

(** A response: its status code and its body, [None] when the body is
    not JSON. *)
Record response : Type := Response {
  status_code : Z;
  body : option json
}.

(** [requests.get] either raises (time-out, connection error) or
    returns a response. *)
Abbreviation network := (request -> res response).

(** [resp.json()] *)
Definition response_json (r : response) : res json :=
  match body r with
  | Some j => Ok j
  | None => Raise JSONDecodeError
  end.

(** The calendar date read from the clock, as [strftime] prints its
    fields: ["%Y"], ["%m"], ["%d"].  A call that reads the clock twice
    is given the same date both times. *)
Record today : Type := Today { year : string; month : string; day : string }.

(** [strftime("%Y-%m-%d")], also [date.isoformat()] *)
Definition isoformat (t : today) : string :=
  year t +:+ "-" +:+ month t +:+ "-" +:+ day t.

(** ** [tools.py] *)

Module Tools.

(** *** [class PreferencesStore] *)
Module PreferencesStore.

(** An instance: its attribute [_store] refers to a dictionary. *)
Record t : Type := Build { _store : loc }.

Definition __init__ (h : heap) : t * heap :=
  let (interests, h1) := Heap.alloc (OList []) h in
  let (d, h2) :=
    Heap.alloc
      (ODict (<["budget_level" := VStr "mid"]>
             (<["interests" := VRef interests]>
             (<["food" := VNone]> ∅)))) h1 in
  (Build d, h2).

(** [self._store[key] = value] *)
Definition set (self : t) (key : string) (value : val) (h : heap) : heap :=
  <[_store self := ODict (<[key := value]> (Heap.dict_of h (_store self)))]> h.

(** [self._store.get(key, default)] *)
Definition get (self : t) (key : string) (default : val) (h : heap) : val :=
  from_option id default (Heap.dict_of h (_store self) !! key).

(** [self._store.update(d)] *)
Definition update (self : t) (d : gmap string val) (h : heap) : heap :=
  <[_store self := ODict (d ∪ Heap.dict_of h (_store self))]> h.

(** [dict(self._store)] *)
Definition dump (self : t) (h : heap) : loc * heap :=
  Heap.copy_dict (_store self) h.

(** A call that writes to the store, and a session of such calls. *)
Inductive call : Type :=
| CallSet (key : string) (value : val)
| CallUpdate (d : gmap string val).

Definition run (self : t) (h : heap) (c : call) : heap :=
  match c with
  | CallSet key value => set self key value h
  | CallUpdate d => update self d h
  end.

Definition session (self : t) (calls : list call) (h : heap) : heap :=
  foldl (run self) h calls.

(** The call writes the key [k]. *)
Definition writes (k : string) (c : call) : bool :=
  match c with
  | CallSet key _ => String.eqb key k
  | CallUpdate d => bool_decide (is_Some (d !! k))
  end.

End PreferencesStore.

(** *** [prayer_times] *)

(** The dictionary the tool serialises:
    [{"city": .., "date": .., "results": ..}],
    [{"error": data.get("data")}], or [{"error": str(e)}]. *)
Inductive prayer_reply : Type :=
| Results (city date : string) (results : json)
| ServiceError (data : json)
| Failure (e : exn).

Definition is_200 (code : json) : bool :=
  match code with JNum n => n =? 200 | _ => false end.

(** The request [requests.get(url.format(city), params=params,
    timeout=15)] sends. *)
Definition timings_request (city date : string) : request :=
  Request ("https://api.aladhan.com/v1/timingsByCity?date=" +:+ city)
          [("city", JStr city); ("country", JStr "UAE");
           ("method", JNum 2); ("date", JStr date)]
          15.

(** The tool's result is [None] when the body runs to its end
    without a [return]. *)
Definition prayer_times (net : network) (now : today)
    (city : string) (date : option string) : res (option prayer_reply) :=
  try_except
    (match date with
     | None =>
         let date := isoformat now in
         r <- net (timings_request city date) ;;
         data <- response_json r ;;
         code <- Py.get data "code" JNull ;;
         if is_200 code then
           d <- Py.getitem data "date" ;;
           timings <- Py.getitem d "timings" ;;
           Ok (Some (Results city date timings))
         else
           err <- Py.get data "data" JNull ;;
           Ok (Some (ServiceError err))
     | Some _ => Ok None
     end)
    (fun e => Ok (Some (Failure e))).

(** *** [estimate_budget] *)

Definition CITY_COSTS : list (string * list (string * Z)) :=
  [("Dubai", [("budget", 100); ("mid", 150); ("luxe", 250)]);
   ("Abu Dhabi", [("budget", 50); ("mid", 120); ("luxe", 260)]);
   ("Sharjah", [("budget", 50); ("mid", 120); ("luxe", 260)]);
   ("General", [("budget", 50); ("mid", 120); ("luxe", 260)])].

Definition TRANSPORT_DAY : list (string * Z) :=
  [("budget", 12); ("mid", 25); ("luxe", 60)].

Definition MEALS_DAY : list (string * Z) :=
  [("budget", 18); ("mid", 35); ("luxe", 80)].

Definition ATTRACTIONS : list (string * Z) :=
  [("budget", 10); ("mid", 25); ("luxe", 50)].

(** [x.lower()] on a stored value: only a string has [lower]. *)
Definition val_lower (x : val) : res string :=
  match x with
  | VStr s => Ok (PyStr.lower s)
  | _ => Raise AttributeError
  end.

(** [budget_level or prefs.get("budget_level", "mid")] *)
Definition level_or_pref (prefs : PreferencesStore.t) (h : heap)
    (budget_level : option string) : val :=
  match budget_level with
  | Some s =>
      if PyStr.truthy s then VStr s
      else PreferencesStore.get prefs "budget_level" (VStr "mid") h
  | None => PreferencesStore.get prefs "budget_level" (VStr "mid") h
  end.

Definition known_level (lvl : string) : bool :=
  bool_decide (lvl ∈ ["budget"; "mid"; "luxe"]).

(** [round(n, 2)] on an int is the int. *)
Definition round2 (n : Z) : Z := n.

(** The dictionary [breakdown] *)
Definition breakdown (city : string) (days travellers : Z) (lvl : string)
    (hotel transport meals attractions subtotal total : Z) : json :=
  JObj
    [("assumptions_note",
      JStr "Rough averages; adjust to season and availability.");
     ("inputs", JObj [("city", JStr city); ("days", JNum days);
                      ("travellers", JNum travellers);
                      ("budget_level", JStr lvl)]);
     ("usd_breakdown",
      JObj [("accommodation", JNum (round2 hotel));
            ("transport", JNum (round2 transport));
            ("meals", JNum (round2 meals));
            ("attractions", JNum (round2 attractions));
            ("buffer_10pct", JNum (round2 (total - subtotal)))]);
     ("total_usd", JNum total)].

Definition estimate_budget (prefs : PreferencesStore.t) (h : heap)
    (city : string) (days travellers : Z) (budget_level : option string)
    : res json :=
  lvl <- val_lower (level_or_pref prefs h budget_level) ;;
  let lvl := if known_level lvl then lvl else "mid" in
  general <- Py.subscript CITY_COSTS "General" ;;
  let base := from_option id general (Py.assoc city CITY_COSTS) in
  rate <- Py.subscript base lvl ;;
  let hotel := rate * days * travellers in
  rate <- Py.subscript TRANSPORT_DAY lvl ;;
  let transport := rate * days * travellers in
  rate <- Py.subscript MEALS_DAY lvl ;;
  let meals := rate * days * travellers in
  rate <- Py.subscript ATTRACTIONS lvl ;;
  let attractions := rate * days * travellers in
  let subtotal := hotel + transport + meals + attractions in
  total <- Binary64.ceil_mul_1_10 subtotal ;;
  Ok (breakdown city days travellers lvl
                hotel transport meals attractions subtotal total).

(** *** [search_knowledge] *)

(** A retrieved document. *)
Record document : Type := Document { page_content : string; metadata : json }.

(** The object bound to [retriever], seen through its attributes: a
    name it does not have gives [None], a method it has takes the
    query and returns documents or raises. *)
Definition retriever : Type := string -> option (string -> res (list document)).

Definition search_knowledge (r : retriever) (query : string) (k : Z) : res json :=
  get_relevant_documants <-
    match r "get_relevant_documants" with
    | Some method => Ok method
    | None => Raise AttributeError
    end ;;
  found <- get_relevant_documants query ;;
  let docs := Py.slice_to k found in
  Ok (JObj [("results",
             JArr (map (fun d => JObj [("snippet", JStr (page_content d));
                                       ("meta", metadata d)]) docs))]).

(** *** [web_search] *)

(** The dictionary the tool serialises: [{"results": res}] or
    [{"error": str(e)}]. *)
Inductive search_reply : Type :=
| SearchResults (results : json)
| SearchError (e : exn).

(** [ddg.run] is the search of the [DuckDuckGoSearchRun] object built
    once in [make_tools]. *)
Definition web_search (ddg_run : string -> res json)
    (query : string) (max_results : Z) : res search_reply :=
  try_except
    (found <- ddg_run query ;;
     let found :=
       match found with
       | JArr xs => JArr (Py.slice_to max_results xs)
       | _ => found
       end in
     Ok (SearchResults found))
    (fun e => Ok (SearchError e)).

End Tools.

(** ** [tools.fixed.py] *)

Module Fixed.

(** *** [class PreferencesStore] *)
Module PreferencesStore.

Record t : Type := Build { _store : loc }.

Definition __init__ (h : heap) : t * heap :=
  let (d, h1) :=
    Heap.alloc
      (ODict (<["budget_level" := VStr "standard"]>
             (<["home_city" := VNone]>
             (<["language" := VStr "en"]> ∅)))) h in
  (Build d, h1).

(** [for k, v in kwargs.items(): self._store[k] = v], then
    [return self._store]: the caller receives the store's own
    dictionary, not a copy. *)
Definition set_many (self : t) (kwargs : list (string * val)) (h : heap)
    : loc * heap :=
  let d := foldl (fun d kv => <[kv.1 := kv.2]> d)
                 (Heap.dict_of h (_store self)) kwargs in
  (_store self, <[_store self := ODict d]> h).

(** [return dict(self._store)] *)
Definition get_all (self : t) (h : heap) : loc * heap :=
  Heap.copy_dict (_store self) h.

(** A session of [set_many] calls, each with its keyword arguments. *)
Definition session (self : t) (calls : list (list (string * val))) (h : heap)
    : heap :=
  foldl (fun h' kwargs => (set_many self kwargs h').2) h calls.

End PreferencesStore.

(** *** [_search_json_kb] *)

Definition asks_tips (q : string) : bool :=
  PyStr.contains "cultural tip" q || PyStr.contains "culture tip" q
  || PyStr.contains "dress" q || PyStr.contains "ramadan" q.

Definition asks_attractions (q : string) : bool :=
  PyStr.any_in ["attraction"; "thing to do"; "what can i do";
                "places to visit"; "itinerary"] q.

Definition asks_general (q : string) : bool :=
  PyStr.any_in ["currency"; "language"; "best time"; "transport"; "metro"] q.

(** The first of the three activity buckets named in [q]. *)
Definition asks_bucket (q : string) : option string :=
  find (fun bucket => PyStr.contains bucket q)
       ["adventure"; "culture"; "relaxation"].

Definition detect_city (cities : json) (q : string) : res (option string) :=
  names <- Py.keys cities ;;
  match find (fun c => PyStr.contains (PyStr.lower c) q) names with
  | Some c => Ok (Some c)
  | None =>
      if PyStr.contains "ras al khaimah" q || PyStr.contains "rak" q
      then Ok (Some "Ras Al Khaimah")
      else Ok None
  end.

(** [city and city in cities]: [None] and the empty string are
    false. *)
Definition known_city (cities : json) (city : option string) : res bool :=
  match city with
  | Some c => if PyStr.truthy c then Py.contains c cities else Ok false
  | None => Ok false
  end.

(** [city or "general"] *)
Definition city_or_general (city : option string) : string :=
  match city with
  | Some c => if PyStr.truthy c then c else "general"
  | None => "general"
  end.

(** [for c, v in cities.items(): tips.extend(v.get("cultural_tips", []))] *)
Fixpoint all_tips (items : list (string * json)) : res (list json) :=
  match items with
  | [] => Ok []
  | (_, v) :: rest =>
      t <- Py.get v "cultural_tips" (JArr []) ;;
      xs <- Py.iter t ;;
      more <- all_tips rest ;;
      Ok (xs ++ more)%list
  end.

(** [[x for x in xs if "Ras Al Khaimah" in x]] *)
Fixpoint mentioning_rak (xs : list json) : res (list json) :=
  match xs with
  | [] => Ok []
  | x :: xs' =>
      b <- Py.contains "Ras Al Khaimah" x ;;
      rest <- mentioning_rak xs' ;;
      Ok (if b then x :: rest else rest)
  end.

Definition cultural_tips (cities : json) (city : option string) : res json :=
  known <- known_city cities city ;;
  has_tips <-
    (if known then
       info <- Py.getitem cities (from_option id "" city) ;;
       Py.contains "cultural_tips" info
     else Ok false) ;;
  if has_tips then
    info <- Py.getitem cities (from_option id "" city) ;;
    Py.getitem info "cultural_tips"
  else
    its <- Py.items cities ;;
    tips <- all_tips its ;;
    unique <- Py.fromkeys tips ;;
    Ok (JArr unique).

(** The attraction rule; [None] when it returns nothing and the
    search goes on to the next rule. *)
Definition top_attractions (cities activities : json) (city : option string)
    : res (option json) :=
  if bool_decide (city = Some "Ras Al Khaimah") then
    relaxation <- Py.get activities "relaxation" (JArr []) ;;
    xs <- Py.iter relaxation ;;
    rak_recs <- mentioning_rak xs ;;
    Ok (Some (JObj
      [("city", JStr "Ras Al Khaimah");
       ("top_attractions",
        JArr (match rak_recs with
              | [] => [JStr "Beach resorts in Ras Al Khaimah"]
              | _ => rak_recs
              end))]))
  else
    known <- known_city cities city ;;
    if known then
      let c := from_option id "" city in
      info <- Py.getitem cities c ;;
      attractions <- Py.get info "top_attractions" (JArr []) ;;
      Ok (Some (JObj [("city", JStr c); ("top_attractions", attractions)]))
    else Ok None.

(** [(query or "").lower().strip()] *)
Definition normalize_query (query : option string) : string :=
  PyStr.strip (PyStr.lower (from_option id "" query)).

Definition _search_json_kb (kb : json) (query : option string) : res json :=
  let q := normalize_query query in
  cities <- Py.get kb "cities" (JObj []) ;;
  activities <- Py.get kb "activities" (JObj []) ;;
  general <- Py.get kb "general_info" (JObj []) ;;
  city <- detect_city cities q ;;
  if asks_tips q then
    tips <- cultural_tips cities city ;;
    Ok (JObj [("city", JStr (city_or_general city)); ("cultural_tips", tips)])
  else
    found <- (if asks_attractions q
             then top_attractions cities activities city
             else Ok None) ;;
    match found with
    | Some payload => Ok payload
    | None =>
        if asks_general q then Ok (JObj [("general_info", general)])
        else
          match asks_bucket q with
          | Some bucket =>
              xs <- Py.get activities bucket (JArr []) ;;
              Ok (JObj [(bucket, xs)])
          | None => Ok kb
          end
    end.

(** *** [prayer_times] *)

Definition CANONICAL : list string :=
  ["Fajr"; "Dhuhr"; "Asr"; "Maghrib"; "Isha"].

Definition FALLBACK : list (string * json) :=
  [("Dubai", JObj [("Fajr", JStr "04:25"); ("Dhuhr", JStr "12:25");
                   ("Asr", JStr "15:55"); ("Maghrib", JStr "18:49");
                   ("Isha", JStr "20:19")]);
   ("Abu Dhabi", JObj [("Fajr", JStr "04:30"); ("Dhuhr", JStr "12:30");
                       ("Asr", JStr "16:00"); ("Maghrib", JStr "18:53");
                       ("Isha", JStr "20:23")]);
   ("Sharjah", JObj [("Fajr", JStr "04:26"); ("Dhuhr", JStr "12:25");
                     ("Asr", JStr "15:56"); ("Maghrib", JStr "18:49");
                     ("Isha", JStr "20:19")])].

(** [(city or "").strip().title() or "Dubai"] *)
Definition normalize_city (city : option string) : string :=
  let c := PyStr.title (PyStr.strip (from_option id "" city)) in
  if PyStr.truthy c then c else "Dubai".

(** [yyyy, mm, dd = date.split("-")], with the clock's fields when
    the unpacking fails. *)
Definition date_fields (now : today) (date : string) : string * string * string :=
  match PyStr.split "-" date with
  | [yyyy; mm; dd] => (yyyy, mm, dd)
  | _ => (year now, month now, day now)
  end.

(** [{k: timings[k] for k in CANONICAL if k in timings}] *)
Fixpoint pick (timings : json) (names : list string)
    : res (list (string * json)) :=
  match names with
  | [] => Ok []
  | k :: names' =>
      present <- Py.contains k timings ;;
      if present then
        v <- Py.getitem timings k ;;
        rest <- pick timings names' ;;
        Ok ((k, v) :: rest)
      else pick timings names'
  end.

(** [f"{yyyy}-{mm}-{dd}"] *)
Definition iso (yyyy mm dd : string) : string :=
  yyyy +:+ "-" +:+ mm +:+ "-" +:+ dd.

(** The request [requests.get(url, params={...}, timeout=4)] sends. *)
Definition timings_request (city_norm yyyy mm dd : string) : request :=
  Request "https://api.aladhan.com/v1/timingsByCity"
          [("city", JStr city_norm);
           ("country", JStr "United Arab Emirates");
           ("method", JNum 2);
           ("date", JStr (dd +:+ "-" +:+ mm +:+ "-" +:+ yyyy))]
          4.

(** [timings = resp.json()["data"]["timings"]] *)
Definition timings_of (outcome : res response) : res json :=
  resp <- outcome ;;
  data <- response_json resp ;;
  d <- Py.getitem data "data" ;;
  Py.getitem d "timings".

(** What the [try] block makes of the outcome of the request:
    [Some out] when it reaches its [return] with a non-empty [out],
    [None] when [out] is empty. *)
Definition extract (outcome : res response) : res (option (list (string * json))) :=
  timings <- timings_of outcome ;;
  out <- pick timings CANONICAL ;;
  match out with
  | [] => Ok None
  | _ => Ok (Some out)
  end.

Definition live_payload (city_norm yyyy mm dd : string)
    (out : list (string * json)) : json :=
  JObj [("city", JStr city_norm);
        ("date", JStr (iso yyyy mm dd));
        ("prayer_times", JObj out)].

(** [FALLBACK.get(city_norm, FALLBACK["Dubai"])] *)
Definition fallback_row (city_norm : string) : res json :=
  dubai <- Py.subscript FALLBACK "Dubai" ;;
  Ok (from_option id dubai (Py.assoc city_norm FALLBACK)).

Definition fallback_payload (city_norm yyyy mm dd : string) (row : json) : json :=
  JObj [("city", JStr city_norm);
        ("date", JStr (iso yyyy mm dd));
        ("prayer_times", row);
        ("note", JStr "Static fallback")].

(** [if not date: date = datetime.now().strftime("%Y-%m-%d")] *)
Definition effective_date (now : today) (date : option string) : string :=
  match date with
  | Some s => if PyStr.truthy s then s else isoformat now
  | None => isoformat now
  end.

Definition prayer_times (net : network) (now : today)
    (city : option string) (date : option string) : res json :=
  let city_norm := normalize_city city in
  let '(yyyy, mm, dd) := date_fields now (effective_date now date) in
  answer <- try_except
              (extract (net (timings_request city_norm yyyy mm dd)))
              (fun _ => Ok None) ;;
  match answer with
  | Some out => Ok (live_payload city_norm yyyy mm dd out)
  | None =>
      row <- fallback_row city_norm ;;
      Ok (fallback_payload city_norm yyyy mm dd row)
  end.

(** The failure paths of the request, one constructor each: the
    transport raises (time-out, connection error); the body is not
    JSON; the body lacks ["data"] or ["timings"]; the timings cannot
    be read; none of the five names is among them. *)
Inductive failed : res response -> Prop :=
| failed_transport e :
    failed (Raise e)
| failed_not_json status :
    failed (Ok (Response status None))
| failed_no_data status data e :
    Py.getitem data "data" = Raise e ->
    failed (Ok (Response status (Some data)))
| failed_no_timings status data d e :
    Py.getitem data "data" = Ok d ->
    Py.getitem d "timings" = Raise e ->
    failed (Ok (Response status (Some data)))
| failed_unreadable status data d timings e :
    Py.getitem data "data" = Ok d ->
    Py.getitem d "timings" = Ok timings ->
    pick timings CANONICAL = Raise e ->
    failed (Ok (Response status (Some data)))
| failed_no_canonical status data d timings :
    Py.getitem data "data" = Ok d ->
    Py.getitem d "timings" = Ok timings ->
    pick timings CANONICAL = Ok [] ->
    failed (Ok (Response status (Some data))).

(** *** [estimate_budget] *)

Definition known_style (style : string) : bool :=
  bool_decide (style ∈ ["budget"; "standard"; "luxury"]).

Definition rates : list (string * Z) :=
  [("budget", 150); ("standard", 400); ("luxury", 1000)].

(** [(style or "standard").lower().strip()] *)
Definition normalize_style (style : option string) : string :=
  let s := from_option id "" style in
  PyStr.strip (PyStr.lower (if PyStr.truthy s then s else "standard")).

Definition estimate_budget (city : string) (days : Z) (style : option string)
    : res json :=
  let style := normalize_style style in
  if negb (known_style style) then
    Ok (JObj [("error", JStr "style must be budget|standard|luxury")])
  else if days <=? 0 then
    Ok (JObj [("error", JStr "days must be > 0")])
  else
    rate <- Py.subscript rates style ;;
    let total := rate * days in
    Ok (JObj [("city", JStr city); ("days", JNum days);
              ("style", JStr style); ("rate_per_day_aed", JNum rate);
              ("estimated_total_aed", JNum total)]).

(** *** [set_preferences] and [get_preferences] *)

(** An argument that passes the test [if x:]: a string that is
    neither [None] nor empty. *)
Definition given (x : option string) : option string :=
  match x with
  | Some s => if PyStr.truthy s then Some s else None
  | None => None
  end.

(** [if x: updates[key] = x] *)
Definition update_if (key : string) (x : option string)
    (updates : list (string * val)) : list (string * val) :=
  match given x with
  | Some s => (updates ++ [(key, VStr s)])%list
  | None => updates
  end.

(** Both tools answer with [{"preferences": PREFS.get_all()}]; the
    result here is the snapshot under that key, with the heap after
    the call. *)
Definition get_preferences (PREFS : PreferencesStore.t) (h : heap)
    : gmap string val * heap :=
  let (snapshot, h1) := PreferencesStore.get_all PREFS h in
  (Heap.dict_of h1 snapshot, h1).

Definition set_preferences (PREFS : PreferencesStore.t)
    (budget_level home_city language : option string) (h : heap)
    : gmap string val * heap :=
  let updates := update_if "language" language
                (update_if "home_city" home_city
                (update_if "budget_level" budget_level [])) in
  let (_, h1) := PreferencesStore.set_many PREFS updates h in
  get_preferences PREFS h1.

(** *** [web_search] *)

(** The dictionary the tool serialises:
    [{"error": "DuckDuckGoSearchRun not installed"}],
    [{"results": hits}] or [{"error": str(e)}]. *)
Inductive search_reply : Type :=
| NotInstalled
| SearchResults (hits : json)
| SearchError (e : exn).

(** [_HAS_DDG] tells whether the import succeeded;
    [DuckDuckGoSearchRun] is the outcome of building the search object,
    a [run] method or an exception. *)
Definition web_search (_HAS_DDG : bool)
    (DuckDuckGoSearchRun : res (string -> res json))
    (query : string) (max_results : Z) : res search_reply :=
  if negb _HAS_DDG then Ok NotInstalled
  else
    ddg_run <- DuckDuckGoSearchRun ;;
    try_except
      (hits <- ddg_run query ;; Ok (SearchResults hits))
      (fun e => Ok (SearchError e)).

End Fixed.

(** ** [llm_provider.py] *)

Module LlmProvider.

(** [os.getenv(name, default)] on the variables that are set. *)
Definition getenv (env : gmap string string) (name default : string) : string :=
  from_option id default (env !! name).

(** The constructor call a loader ends with.  A loader's result [inr]
    is that call, as data: the import in the branch and the
    constructor itself (a missing API key) can still fail, and that is
    outside this model. *)
Inductive chat_model : Type :=
| ChatOpenAI (model temperature : string)
| ChatGoogleGenerativeAI (model temperature : string).

Inductive embedding_model : Type :=
| GoogleGenerativeAIEmbeddings (model : string)
| OpenAIEmbeddings (model : string).

Inductive load_error : Type :=
| RuntimeError (msg : string).

Definition load_llm (env : gmap string string) : load_error + chat_model :=
  let provider := PyStr.lower (getenv env "PROVIDER" "gemini") in
  if String.eqb provider "openai" then
    inr (ChatOpenAI (getenv env "OPENAI_MODEL" "gpt-4o-mini") "0.3")
  else if String.eqb provider "gemini" then
    inr (ChatGoogleGenerativeAI (getenv env "GEMINI_MODEL" "gemini-1.5-flash") "0.3")
  else inl (RuntimeError ("Unknown provider " +:+ provider)).

Definition load_embeddings (env : gmap string string)
    : load_error + embedding_model :=
  let provider := PyStr.lower (getenv env "PROVIDER" "gemini") in
  if String.eqb provider "gemini" then
    inr (GoogleGenerativeAIEmbeddings "models/embeddings-001")
  else if String.eqb provider "openai" then
    inr (OpenAIEmbeddings "text-embedding-3-small")
  else inl (RuntimeError ("Unknown provider for embeddings '" +:+ provider +:+ "'.")).

End LlmProvider.

(** ** [app_streamlit.py]: what the sidebar writes *)

Module App.

(** [st.session_state["prefs"].set("default_budget", default_budget)] *)
Definition store_default_budget (prefs : Tools.PreferencesStore.t)
    (default_budget : string) (h : heap) : heap :=
  Tools.PreferencesStore.set prefs "default_budget" (VStr default_budget) h.

(** [os.environ.setdefault(name, value)] *)
Definition setdefault (name value : string) (env : gmap string string)
    : gmap string string :=
  match env !! name with
  | Some _ => env
  | None => <[name := value]> env
  end.

(** The four lines that export the model and the temperature picked
    in the sidebar; [temperature] is [str(temperature)]. *)
Definition export_model_settings (model_name temperature : string)
    (env : gmap string string) : gmap string string :=
  let env := setdefault "MODEL_NAME" model_name env in
  let env := <["MODEL_NAME" := model_name]> env in
  let env := setdefault "MODEL_TEMPERATURE" temperature env in
  <["MODEL_TEMPERATURE" := temperature]> env.

End App.

(** ** [smartcafe_assistant.py]: [class ResearchAgent] *)

Module SmartCafe.

(** The loop of [_find_menu_item] over the names the menu yields. *)
Fixpoint find_among (item_name : string) (menu_dict : json) (names : list json)
    : res json :=
  match names with
  | [] => Ok JNull
  | JStr name :: rest =>
      if String.eqb (PyStr.lower name) (PyStr.lower item_name)
      then Py.getitem menu_dict name
      else find_among item_name menu_dict rest
  | _ :: _ => Raise AttributeError
  end.

(** The result is the entry found, or [None] ([JNull]). *)
Definition _find_menu_item (item_name : string) (menu_dict : json) : res json :=
  names <- Py.iter menu_dict ;;
  find_among item_name menu_dict names.

(** [self.data] is the first argument. *)
Definition get_ingredients (data : json) (item_name : string) : res string :=
  menu <- Py.get data "menu" (JObj []) ;;
  item <- _find_menu_item item_name menu ;;
  if Py.truthy item then
    ingredients <- Py.getitem item "ingredients" ;;
    listed <- Py.join ", " ingredients ;;
    Ok (item_name +:+ " ingredients: " +:+ listed)
  else
    Ok ("Sorry, I couldn't find ingredients for '" +:+ item_name +:+ "'.").

Section Formatting.

(** What an f-string prints for a value: Python's [str]. *)
Variable format : json -> string.

Definition get_price (data : json) (item_name : string) : res string :=
  menu <- Py.get data "menu" (JObj []) ;;
  item <- _find_menu_item item_name menu ;;
  if Py.truthy item then
    price <- Py.get item "price_usd" JNull ;;
    match price with
    | JNull =>
        Ok ("Sorry, I don't have the price information for "
            +:+ format item +:+ ".")
    | _ => Ok ("The price of " +:+ item_name +:+ " is $" +:+ format price +:+ ".")
    end
  else Ok ("Sorry, I don't know the price for " +:+ format item +:+ ".").

End Formatting.

End SmartCafe.

(** ** What the specification says, in its own words *)

Module Spec.

(** [ceil(subtotal * 1.10)] over the rationals. *)
Definition ceil_110 (subtotal : Z) : Z := - ((- (subtotal * 110)) / 100).

(** A sequence of strings. *)
Definition strings (x : json) : bool :=
  match x with
  | JArr xs => forallb (fun y => match y with JStr _ => true | _ => false end) xs
  | _ => false
  end.

(** A city entry: [top_attractions] and [cultural_tips], each a
    sequence of strings when present. *)
Definition city_entry (x : json) : bool :=
  match x with
  | JObj fields =>
      from_option strings true (Py.assoc "top_attractions" fields)
      && from_option strings true (Py.assoc "cultural_tips" fields)
  | _ => false
  end.

Definition mapping_of (p : json -> bool) (x : json) : bool :=
  match x with
  | JObj kvs => forallb (fun kv => p kv.2) kvs
  | _ => false
  end.

(** The KnowledgeDocument of the data model: [cities] maps a name to
    a city entry, [activities] maps a category to a sequence of
    strings, [general_info] is free. *)
Definition knowledge_document (kb : json) : bool :=
  match kb with
  | JObj top =>
      from_option (mapping_of city_entry) true (Py.assoc "cities" top)
      && from_option (mapping_of strings) true (Py.assoc "activities" top)
  | _ => false
  end.

End Spec.

(** ** The order of first occurrence *)


(** * Properties *)

(** ** The result monad *)

Lemma returns_ok {A} (a : A) : returns (Ok a).
Proof. by exists a. Qed.

(** ** Binary64: the error of one rounding *)

Section Rounding.

Import Binary64.

(** A few values of [math.ceil(n * 1.10)], as CPython computes them:
    [90 * 1.10] is 99.00000000000001 and [140 * 1.10] is 154.0; an
    int beyond the range of a double raises. *)
Example ceil_mul_1_10_samples :
  map ceil_mul_1_10 [0; 90; 140; 205; 410; 1000; -90; 2 ^ 1024]
  = [Ok 0; Ok 100; Ok 154; Ok 226; Ok 452; Ok 1100; Ok (-99);
     Raise OverflowError].
Proof. vm_compute. reflexivity. Qed.





End Rounding.

(** ** The knowledge search *)

Section KnowledgeSearch.

Import Fixed.

Lemma assoc_forallb {V} (p : V -> bool) k (kvs : list (string * V)) v :
  forallb (fun kv => p kv.2) kvs = true ->
  Py.assoc k kvs = Some v -> p v = true.
Proof.
  induction kvs as [| [k' v'] kvs IH]; simpl; [discriminate |].
  intros H Hk. apply andb_true_iff in H as [Hv Hrest].
  destruct (String.eqb k k').
  - injection Hk as <-. exact Hv.
  - apply IH; assumption.
Qed.

(** The first key whose search succeeds is a key of the list. *)
Lemma find_assoc {V} (f : string -> bool) (kvs : list (string * V)) c :
  find f (map fst kvs) = Some c -> is_Some (Py.assoc c kvs).
Proof.
  induction kvs as [| [k v] kvs IH]; simpl; [discriminate |].
  intros H. destruct (String.eqb c k) eqn:E; [eexists; reflexivity |].
  destruct (f k).
  - injection H as ->. rewrite String.eqb_refl in E. discriminate.
  - apply IH. exact H.
Qed.

Lemma from_option_mapping (p : json -> bool) (o : option json) :
  from_option (Spec.mapping_of p) true o = true ->
  exists kvs, from_option id (JObj []) o = JObj kvs
              /\ forallb (fun kv => p kv.2) kvs = true.
Proof.
  destruct o as [[| | | | | kvs] |]; simpl; try discriminate.
  - intros H. exists kvs. split; [reflexivity | exact H].
  - intros _. exists []. split; reflexivity.
Qed.

Lemma strings_iter x :
  Spec.strings x = true ->
  exists xs, x = JArr xs
    /\ forallb (fun y => match y with JStr _ => true | _ => false end) xs = true.
Proof.
  destruct x; simpl; try discriminate. intros H. eexists; split; [reflexivity | exact H].
Qed.

Lemma fromkeys_strings xs :
  forallb (fun y => match y with JStr _ => true | _ => false end) xs = true ->
  returns (Py.fromkeys xs).
Proof.
  induction xs as [| x xs IH]; simpl; [intros _; apply returns_ok |].
  intros H. apply andb_true_iff in H as [Hx Hxs].
  destruct x; try discriminate. simpl.
  destruct (IH Hxs) as [rest ->]. apply returns_ok.
Qed.

Lemma mentioning_rak_strings xs :
  forallb (fun y => match y with JStr _ => true | _ => false end) xs = true ->
  returns (mentioning_rak xs).
Proof.
  induction xs as [| x xs IH]; simpl; [intros _; apply returns_ok |].
  intros H. apply andb_true_iff in H as [Hx Hxs].
  destruct x; try discriminate. simpl.
  destruct (IH Hxs) as [rest ->]. apply returns_ok.
Qed.

Lemma all_tips_strings its :
  forallb (fun kv => Spec.city_entry kv.2) its = true ->
  exists tips, all_tips its = Ok tips
    /\ forallb (fun y => match y with JStr _ => true | _ => false end) tips = true.
Proof.
  induction its as [| [k v] its IH]; simpl.
  - intros _. exists []. split; reflexivity.
  - intros H. apply andb_true_iff in H as [Hv Hrest].
    destruct (IH Hrest) as (more & -> & Hmore).
    destruct v as [| | | | | fields]; simpl in Hv; try discriminate.
    apply andb_true_iff in Hv as [_ Htips].
    cbn [Py.get bind].
    destruct (Py.assoc "cultural_tips" fields) as [t |]; simpl in Htips |- *.
    + destruct (strings_iter t Htips) as (xs & -> & Hxs). cbn [Py.iter bind].
      eexists; split; [reflexivity |].
      rewrite forallb_app, Hxs, Hmore. reflexivity.
    + eexists; split; [reflexivity | exact Hmore].
Qed.

(** What [detect_city] finds in a dictionary of cities. *)
Lemma detect_city_cases cs q :
  (exists c, detect_city (JObj cs) q = Ok (Some c)
             /\ (is_Some (Py.assoc c cs) \/ c = "Ras Al Khaimah"))
  \/ detect_city (JObj cs) q = Ok None.
Proof.
  unfold detect_city. cbn [Py.keys bind].
  destruct (find _ (map fst cs)) as [c |] eqn:Hf.
  - left. exists c. split; [reflexivity |]. left. eapply find_assoc. exact Hf.
  - destruct (_ || _).
    + left. eexists; split; [reflexivity |]. right. reflexivity.
    + right. reflexivity.
Qed.

Lemma known_city_returns cs city :
  exists b, known_city (JObj cs) city = Ok b
    /\ (b = true -> exists c v, city = Some c /\ Py.assoc c cs = Some v).
Proof.
  destruct city as [c |]; simpl.
  - destruct (PyStr.truthy c).
    + eexists; split; [reflexivity |].
      intros H. apply bool_decide_eq_true in H as [v Hv].
      exists c, v. split; [reflexivity | exact Hv].
    + exists false. split; [reflexivity | discriminate].
  - exists false. split; [reflexivity | discriminate].
Qed.

Lemma cultural_tips_returns cs city :
  forallb (fun kv => Spec.city_entry kv.2) cs = true ->
  returns (cultural_tips (JObj cs) city).
Proof.
  intros Hcs. unfold cultural_tips.
  destruct (known_city_returns cs city) as (b & -> & Hb). cbn [bind].
  destruct b.
  - destruct (Hb eq_refl) as (c & v & -> & Hv). cbn [from_option id].
    cbn [Py.getitem]. rewrite Hv. cbn [bind].
    pose proof (assoc_forallb Spec.city_entry c cs v Hcs Hv) as Hentry.
    destruct v as [| | | | | fields]; simpl in Hentry; try discriminate.
    cbn [Py.contains bind].
    destruct (bool_decide (is_Some (Py.assoc "cultural_tips" fields))) eqn:E.
    + apply bool_decide_eq_true in E as [t Ht]. cbn [Py.getitem].
      rewrite Ht. apply returns_ok.
    + cbn [Py.items bind].
      destruct (all_tips_strings cs Hcs) as (tips & -> & Htips). cbn [bind].
      destruct (fromkeys_strings tips Htips) as [u ->]. apply returns_ok.
  - cbn [bind Py.items].
    destruct (all_tips_strings cs Hcs) as (tips & -> & Htips). cbn [bind].
    destruct (fromkeys_strings tips Htips) as [u ->]. apply returns_ok.
Qed.

Lemma top_attractions_returns cs acts city :
  forallb (fun kv => Spec.city_entry kv.2) cs = true ->
  forallb (fun kv => Spec.strings kv.2) acts = true ->
  returns (top_attractions (JObj cs) (JObj acts) city).
Proof.
  intros Hcs Hacts. unfold top_attractions.
  destruct (bool_decide (city = Some "Ras Al Khaimah")).
  - cbn [Py.get bind].
    assert (Hr : Spec.strings (from_option id (JArr [])
                                 (Py.assoc "relaxation" acts)) = true).
    { destruct (Py.assoc "relaxation" acts) as [t |] eqn:Ht; simpl;
        [| reflexivity].
      eapply (assoc_forallb Spec.strings); eassumption. }
    destruct (strings_iter _ Hr) as (xs & -> & Hxs). cbn [Py.iter bind].
    destruct (mentioning_rak_strings xs Hxs) as [recs ->]. apply returns_ok.
  - destruct (known_city_returns cs city) as (b & -> & Hb). cbn [bind].
    destruct b; [| apply returns_ok].
    destruct (Hb eq_refl) as (c & v & -> & Hv). cbn [from_option id].
    cbn [Py.getitem]. rewrite Hv. cbn [bind].
    pose proof (assoc_forallb Spec.city_entry c cs v Hcs Hv) as Hentry.
    destruct v as [| | | | | fields]; simpl in Hentry; try discriminate.
    apply returns_ok.
Qed.

(** C5.  On a knowledge document of the data model the search raises
    for no query, and a query to which no rule applies (no cultural-tip
    keyword, no general-information keyword, no activity bucket, and
    either no attraction keyword or no city detected) is answered with
    the whole document. *)
Theorem search_never_raises kb :
  Spec.knowledge_document kb = true ->
  (forall query, returns (_search_json_kb kb query))
  /\ (forall query,
      asks_tips (normalize_query query) = false ->
      asks_general (normalize_query query) = false ->
      asks_bucket (normalize_query query) = None ->
      (asks_attractions (normalize_query query) = false
       \/ (cities <- Py.get kb "cities" (JObj []) ;;
           detect_city cities (normalize_query query)) = Ok None) ->
      _search_json_kb kb query = Ok kb).
Proof.
  intros Hkb. destruct kb as [| | | | | top]; simpl in Hkb; try discriminate.
  apply andb_true_iff in Hkb as [Hcities Hacts].
  destruct (from_option_mapping _ _ Hcities) as (cs & Ecs & Hcs).
  destruct (from_option_mapping _ _ Hacts) as (acts & Eacts & Has).
  split.
  - intros query. unfold _search_json_kb. cbn [Py.get bind].
    rewrite Ecs, Eacts.
    destruct (detect_city_cases cs (normalize_query query))
      as [(c & -> & _) | ->]; cbn [bind].
    + destruct (asks_tips _).
      * destruct (cultural_tips_returns cs (Some c) Hcs) as [t ->].
        apply returns_ok.
      * destruct (asks_attractions _); cbn [bind].
        -- destruct (top_attractions_returns cs acts (Some c) Hcs Has)
             as [[p |] ->]; cbn [bind]; [apply returns_ok |].
           destruct (asks_general _); [apply returns_ok |].
           destruct (asks_bucket _); apply returns_ok.
        -- destruct (asks_general _); [apply returns_ok |].
           destruct (asks_bucket _); apply returns_ok.
    + destruct (asks_tips _).
      * destruct (cultural_tips_returns cs None Hcs) as [t ->].
        apply returns_ok.
      * destruct (asks_attractions _); cbn [bind].
        -- destruct (top_attractions_returns cs acts None Hcs Has)
             as [[p |] ->]; cbn [bind]; [apply returns_ok |].
           destruct (asks_general _); [apply returns_ok |].
           destruct (asks_bucket _); apply returns_ok.
        -- destruct (asks_general _); [apply returns_ok |].
           destruct (asks_bucket _); apply returns_ok.
  - intros query Htips Hgen Hbucket Hattr.
    unfold _search_json_kb. cbn [Py.get bind] in Hattr |- *.
    rewrite Ecs in Hattr |- *. rewrite Eacts.
    rewrite Htips, Hgen, Hbucket.
    destruct Hattr as [-> | ->].
    + destruct (detect_city_cases cs (normalize_query query))
        as [(c & -> & _) | ->]; reflexivity.
    + cbn [bind]. destruct (asks_attractions _); reflexivity.
Qed.

Lemma search_never_raises_witness :
  _search_json_kb
    (JObj [("cities",
            JObj [("Dubai",
                   JObj [("top_attractions", JArr [JStr "Burj Khalifa"]);
                         ("cultural_tips", JArr [JStr "Dress modestly"])])]);
           ("activities", JObj [("adventure", JArr [JStr "Dune bashing"])]);
           ("general_info", JObj [("currency", JStr "AED")])])
    (Some "Tell me a joke")
  = Ok (JObj [("cities",
            JObj [("Dubai",
                   JObj [("top_attractions", JArr [JStr "Burj Khalifa"]);
                         ("cultural_tips", JArr [JStr "Dress modestly"])])]);
           ("activities", JObj [("adventure", JArr [JStr "Dune bashing"])]);
           ("general_info", JObj [("currency", JStr "AED")])]).
Proof.
  refine (proj2 (search_never_raises _ _) (Some "Tell me a joke") _ _ _ _).
  - reflexivity.
  - reflexivity.
  - reflexivity.
  - reflexivity.
  - left. reflexivity.
Defined.

(** A document with two cities and a query naming both: the first city
    of the document is the one answered, although the query also holds
    the name of the second and the word "attractions". *)
Lemma search_two_cities :
  let kb :=
    JObj [("cities",
           JObj [("Dubai", JObj [("top_attractions", JArr [JStr "Burj Khalifa"])]);
                 ("Sharjah", JObj [("top_attractions", JArr [JStr "Al Noor Island"])])])] in
  let q := normalize_query (Some "Sharjah or Dubai attractions") in
  PyStr.contains (PyStr.lower "Sharjah") q = true
  /\ asks_attractions q = true
  /\ asks_tips q = false
  /\ _search_json_kb kb (Some "Sharjah or Dubai attractions")
     = Ok (JObj [("city", JStr "Dubai");
                 ("top_attractions", JArr [JStr "Burj Khalifa"])])
  /\ _search_json_kb kb (Some "Sharjah or Dubai attractions")
     <> Ok (JObj [("city", JStr "Sharjah");
                  ("top_attractions", JArr [JStr "Al Noor Island"])]).
Proof. vm_compute. repeat split; discriminate. Qed.

(** A city entry named Ras Al Khaimah is not consulted: the answer is
    built from the relaxation activities. *)
Lemma search_ras_al_khaimah :
  _search_json_kb
    (JObj [("cities",
            JObj [("Ras Al Khaimah",
                   JObj [("top_attractions", JArr [JStr "Jebel Jais"])])])])
    (Some "Ras Al Khaimah attractions")
  = Ok (JObj [("city", JStr "Ras Al Khaimah");
              ("top_attractions", JArr [JStr "Beach resorts in Ras Al Khaimah"])]).
Proof. reflexivity. Qed.

(** C6, as the code has it.  When the first city of the document
    whose lower-cased name occurs in the query is [c], [c] is neither
    empty nor Ras Al Khaimah, its entry is a dictionary, and the query
    has an attraction keyword and no cultural-tip keyword, the answer
    is [c] with its [top_attractions] as stored (the empty list when
    the entry has none). *)
Theorem search_top_attractions top cs c info query :
  Py.assoc "cities" top = Some (JObj cs) ->
  find (fun name => PyStr.contains (PyStr.lower name) (normalize_query query))
       (map fst cs) = Some c ->
  c <> "Ras Al Khaimah" -> c <> "" ->
  Py.assoc c cs = Some (JObj info) ->
  asks_tips (normalize_query query) = false ->
  asks_attractions (normalize_query query) = true ->
  _search_json_kb (JObj top) query
  = Ok (JObj [("city", JStr c);
              ("top_attractions",
               from_option id (JArr []) (Py.assoc "top_attractions" info))]).
Proof.
  intros Hcities Hfind Hrak Hne Hinfo Htips Hattr.
  unfold _search_json_kb. cbn [Py.get bind]. rewrite Hcities. cbn [from_option id].
  unfold detect_city. cbn [Py.keys bind]. rewrite Hfind. cbn [bind].
  rewrite Htips, Hattr. unfold top_attractions.
  rewrite bool_decide_eq_false_2 by congruence.
  unfold known_city.
  replace (PyStr.truthy c) with true by (destruct c; [contradiction | reflexivity]).
  cbn [Py.contains bind]. rewrite Hinfo.
  rewrite bool_decide_eq_true_2 by (eexists; reflexivity).
  cbn [from_option id Py.getitem]. rewrite Hinfo. reflexivity.
Qed.

Lemma search_top_attractions_witness :
  _search_json_kb
    (JObj [("cities",
            JObj [("Dubai", JObj [("top_attractions",
                                   JArr [JStr "Burj Khalifa"; JStr "Dubai Mall"])]);
                  ("Sharjah", JObj [("top_attractions", JArr [JStr "Al Noor Island"])])])])
    (Some "  Top ATTRACTIONS in Sharjah?")
  = Ok (JObj [("city", JStr "Sharjah");
              ("top_attractions", JArr [JStr "Al Noor Island"])]).
Proof.
  eapply (search_top_attractions _ _ "Sharjah"
            [("top_attractions", JArr [JStr "Al Noor Island"])]
            (Some "  Top ATTRACTIONS in Sharjah?"));
    try reflexivity; discriminate.
Defined.

End KnowledgeSearch.

(** ** The prayer-time resolvers *)

Section PrayerTimes.

Import Fixed.



(** The [try] block either reaches its [return] or fails in one of the
    listed ways. *)
Lemma extract_cases outcome :
  (exists timings out,
      out <> [] /\ timings_of outcome = Ok timings
      /\ pick timings CANONICAL = Ok out
      /\ extract outcome = Ok (Some out))
  \/ (failed outcome
      /\ try_except (extract outcome) (fun _ => Ok None) = Ok None).
Proof.
  destruct outcome as [[status [data |]] | e];
    [| right; split; [constructor | reflexivity]
     | right; split; [constructor | reflexivity]].
  unfold extract, timings_of. cbn [bind response_json body].
  destruct (Py.getitem data "data") as [d | e] eqn:Hd; cbn [bind];
    [| right; split; [econstructor 3; exact Hd | reflexivity]].
  destruct (Py.getitem d "timings") as [timings | e] eqn:Ht; cbn [bind];
    [| right; split; [econstructor 4; eassumption | reflexivity]].
  destruct (pick timings CANONICAL) as [[| kv out] | e] eqn:Hp; cbn [bind].
  - right; split; [econstructor 6; eassumption | reflexivity].
  - left. exists timings, (kv :: out).
    split; [discriminate |]. split; [reflexivity |]. split; [exact Hp |].
    reflexivity.
  - right; split; [econstructor 5; eassumption | reflexivity].
Qed.

Lemma failed_no_answer outcome :
  failed outcome ->
  try_except (extract outcome) (fun _ => Ok None) = Ok None.
Proof.
  intros H. unfold extract, timings_of.
  destruct H as [e | st | st data e Hd | st data d e Hd Ht
                | st data d t e Hd Ht Hp | st data d t Hd Ht Hp];
    cbn [bind response_json body]; try reflexivity;
    rewrite Hd; cbn [bind]; try reflexivity;
    rewrite Ht; cbn [bind]; try reflexivity;
    rewrite Hp; reflexivity.
Qed.

(** The status code of the response is not read. *)
Lemma extract_ignores_status status status' b :
  extract (Ok (Response status b)) = extract (Ok (Response status' b)).
Proof. reflexivity. Qed.

(** The fallback row: the city's own row when the table has one, the
    Dubai row otherwise; always the five names, in order. *)
Lemma fallback_row_canonical city_norm :
  exists row,
    fallback_row city_norm = Ok (JObj row)
    /\ map fst row = CANONICAL
    /\ match Py.assoc city_norm FALLBACK with
       | Some own => own = JObj row
       | None => Py.assoc "Dubai" FALLBACK = Some (JObj row)
       end.
Proof.
  unfold fallback_row, FALLBACK, Py.subscript, Py.assoc.
  repeat (match goal with
          | |- context [String.eqb city_norm ?b] =>
              destruct (String.eqb city_norm b)
          end);
    cbn; eexists; (split; [reflexivity |]); split; reflexivity.
Qed.

(** On either path the tool returns. *)
Lemma prayer_times_returns net now city date :
  returns (prayer_times net now city date).
Proof.
  unfold prayer_times.
  destruct (date_fields now (effective_date now date)) as [[yyyy mm] dd].
  destruct (extract_cases (net (timings_request (normalize_city city) yyyy mm dd)))
    as [(timings & out & _ & _ & _ & Hx) | [_ Hx]];
    rewrite Hx; cbn [try_except bind]; [apply returns_ok |].
  destruct (fallback_row_canonical (normalize_city city)) as (row & Hr & _).
  rewrite Hr. apply returns_ok.
Qed.







(** [tools.py] when the service cannot be reached: the reply is the
    error dictionary, no timing set is produced. *)
Lemma prayer_times_tools_timeout :
  Tools.prayer_times (fun _ => Raise (RequestException "timed out"))
                     (Today "2026" "11" "03") "Dubai" None
  = Ok (Some (Tools.Failure (RequestException "timed out")))
  /\ forall c d timings,
       Tools.prayer_times (fun _ => Raise (RequestException "timed out"))
                          (Today "2026" "11" "03") "Dubai" None
       <> Ok (Some (Tools.Results c d timings)).
Proof. split; [reflexivity | discriminate]. Qed.

(** C1, as the code has it.  Neither tool raises.  In [tools.fixed.py]
    every failure of the request (transport error, body that is not
    JSON, missing or unreadable fields, no canonical name) ends in the
    fallback dictionary, marked by its note and by nothing else; the
    status code is not consulted.  In [tools.py] there is no fallback
    table: a transport error or a body that is not JSON is answered with
    the error dictionary. *)
Theorem prayer_times_never_raises :
  (forall net now city date, returns (prayer_times net now city date))
  /\ (forall net now city date yyyy mm dd,
      date_fields now (effective_date now date) = (yyyy, mm, dd) ->
      failed (net (timings_request (normalize_city city) yyyy mm dd)) ->
      exists row,
        fallback_row (normalize_city city) = Ok row
        /\ prayer_times net now city date
           = Ok (fallback_payload (normalize_city city) yyyy mm dd row))
  /\ (forall net now city date, returns (Tools.prayer_times net now city date))
  /\ (forall net now city e,
      net (Tools.timings_request city (isoformat now)) = Raise e ->
      Tools.prayer_times net now city None = Ok (Some (Tools.Failure e)))
  /\ (forall net now city status,
      net (Tools.timings_request city (isoformat now))
      = Ok (Response status None) ->
      Tools.prayer_times net now city None
      = Ok (Some (Tools.Failure JSONDecodeError))).
Proof.
  split; [| split; [| split; [| split]]].
  - apply prayer_times_returns.
  - intros net now city date yyyy mm dd Hdate Hfail.
    destruct (fallback_row_canonical (normalize_city city)) as (row & Hr & _).
    exists (JObj row). split; [exact Hr |].
    unfold prayer_times. rewrite Hdate.
    rewrite (failed_no_answer _ Hfail). cbn [bind]. rewrite Hr. reflexivity.
  - intros net now city date. unfold Tools.prayer_times.
    destruct (match date with None => _ | Some _ => _ end);
      apply returns_ok.
  - intros net now city e H. unfold Tools.prayer_times. rewrite H. reflexivity.
  - intros net now city status H. unfold Tools.prayer_times. rewrite H.
    reflexivity.
Qed.

Lemma prayer_times_never_raises_witness :
  exists row,
    fallback_row (normalize_city (Some " abu dhabi ")) = Ok row
    /\ prayer_times (fun _ => Raise (RequestException "timed out"))
                    (Today "2026" "11" "03") (Some " abu dhabi ") None
       = Ok (fallback_payload "Abu Dhabi" "2026" "11" "03" row).
Proof.
  destruct prayer_times_never_raises as (_ & H & _).
  apply (H (fun _ => Raise (RequestException "timed out"))
           (Today "2026" "11" "03") (Some " abu dhabi ") None
           "2026" "11" "03").
  - reflexivity.
  - apply failed_transport.
Defined.

End PrayerTimes.

(** ** The budget estimators *)

Section Budget.

Import Tools.

Lemma known_level_cases lvl :
  lvl ∈ ["budget"; "mid"; "luxe"] ->
  lvl = "budget" \/ lvl = "mid" \/ lvl = "luxe".
Proof. rewrite !elem_of_cons, elem_of_nil. tauto. Qed.

(** Every city is priced from the Dubai row or from a row equal to the
    General one. *)
Lemma city_row_cases city :
  exists row,
    from_option id [("budget", 50); ("mid", 120); ("luxe", 260)]
      (Py.assoc city CITY_COSTS) = row
    /\ (row = [("budget", 100); ("mid", 150); ("luxe", 250)]
        \/ row = [("budget", 50); ("mid", 120); ("luxe", 260)]).
Proof.
  eexists; split; [reflexivity |].
  unfold CITY_COSTS, Py.assoc.
  repeat (match goal with
          | |- context [String.eqb ?a ?b] => destruct (String.eqb a b)
          end; simpl; auto).
Qed.

(** A recognised level passed as an argument is used as it is. *)
Lemma level_given prefs h lvl :
  lvl ∈ ["budget"; "mid"; "luxe"] ->
  val_lower (level_or_pref prefs h (Some lvl)) = Ok lvl
  /\ known_level lvl = true.
Proof.
  intros H. apply known_level_cases in H.
  destruct H as [-> | [-> | ->]]; split; reflexivity.
Qed.

Ltac tables :=
  cbn [bind Py.subscript Py.assoc String.eqb Ascii.eqb Bool.eqb from_option id
       TRANSPORT_DAY MEALS_DAY ATTRACTIONS].

(** Whatever the argument and the stored preference, the estimate is
    the one of a recognised level: the level found when it is
    recognised, ["mid"] otherwise. *)
Lemma estimate_budget_level prefs h city days travellers budget_level lvl :
  val_lower (level_or_pref prefs h budget_level) = Ok lvl ->
  estimate_budget prefs h city days travellers budget_level
  = estimate_budget prefs h city days travellers
      (Some (if known_level lvl then lvl else "mid")).
Proof.
  intros H. unfold estimate_budget. rewrite H. cbn [bind].
  assert (Hk : (if known_level lvl then lvl else "mid")
               ∈ ["budget"; "mid"; "luxe"]).
  { destruct (known_level lvl) eqn:E.
    - apply bool_decide_eq_true in E. exact E.
    - rewrite !elem_of_cons. auto. }
  destruct (level_given prefs h _ Hk) as [H1 H2].
  rewrite H1. cbn [bind]. rewrite H2. reflexivity.
Qed.



(** The smallest General-row quote of [tools.py]: the categories add up
    to 90, the exact ceiling of [90 * 1.10] is 99, and the tool answers
    100 with a buffer of 10. *)
Lemma estimate_budget_general_budget_1_1 :
  let '(prefs, h) := PreferencesStore.__init__ ∅ in
  estimate_budget prefs h "General" 1 1 (Some "budget")
  = Ok (breakdown "General" 1 1 "budget" 50 12 18 10 90 100)
  /\ 100 <> Spec.ceil_110 (50 + 12 + 18 + 10).
Proof. split; [vm_compute; reflexivity | vm_compute; discriminate]. Qed.


(** [tools.py] on an unknown tier and a day count of zero: a quote at
    the ["mid"] level with every amount zero, no error. *)
Lemma estimate_budget_platinum_zero_days :
  let '(prefs, h) := PreferencesStore.__init__ ∅ in
  estimate_budget prefs h "Dubai" 0 1 (Some "platinum")
  = Ok (breakdown "Dubai" 0 1 "mid" 0 0 0 0 0 0).
Proof. vm_compute. reflexivity. Qed.

(** C3, as the code has it.  [tools.fixed.py] answers a style outside
    budget|standard|luxury with an error naming [style], and otherwise
    a day count that is not positive with an error naming [days].
    [tools.py] replaces an unrecognised level by ["mid"] and does not
    look at the sign of [days]: zero days give a quote of zeros. *)
Theorem estimate_budget_validation :
  (forall city days style,
      Fixed.known_style (Fixed.normalize_style style) = false ->
      Fixed.estimate_budget city days style
      = Ok (JObj [("error", JStr "style must be budget|standard|luxury")]))
  /\ (forall city days style,
      Fixed.known_style (Fixed.normalize_style style) = true ->
      days <= 0 ->
      Fixed.estimate_budget city days style
      = Ok (JObj [("error", JStr "days must be > 0")]))
  /\ (forall prefs h city days travellers lvl,
      PyStr.truthy lvl = true ->
      known_level (PyStr.lower lvl) = false ->
      estimate_budget prefs h city days travellers (Some lvl)
      = estimate_budget prefs h city days travellers (Some "mid"))
  /\ (forall prefs h city travellers lvl,
      lvl ∈ ["budget"; "mid"; "luxe"] ->
      estimate_budget prefs h city 0 travellers (Some lvl)
      = Ok (breakdown city 0 travellers lvl 0 0 0 0 0 0)).
Proof.
  split; [| split; [| split]].
  - intros city days style H. unfold Fixed.estimate_budget.
    rewrite H. reflexivity.
  - intros city days style H Hd. unfold Fixed.estimate_budget. rewrite H.
    apply Z.leb_le in Hd. rewrite Hd. reflexivity.
  - intros prefs h city days travellers lvl Ht Hk.
    rewrite (estimate_budget_level prefs h city days travellers
               (Some lvl) (PyStr.lower lvl)).
    + rewrite Hk. reflexivity.
    + unfold level_or_pref. rewrite Ht. reflexivity.
  - intros prefs h city travellers lvl Hl.
    destruct (city_row_cases city) as (row & Hrow & Hcase).
    destruct (level_given prefs h lvl Hl) as [Hlvl Hknown].
    unfold estimate_budget. rewrite Hlvl. cbn [bind]. rewrite Hknown.
    change (Py.subscript CITY_COSTS "General")
      with (Ok (A := list (string * Z))
               [("budget", 50); ("mid", 120); ("luxe", 260)]).
    cbn [bind]. rewrite Hrow.
    apply known_level_cases in Hl.
    destruct Hl as [-> | [-> | ->]], Hcase as [-> | ->]; tables;
      rewrite ?Z.mul_0_r, ?Z.mul_0_l; reflexivity.
Qed.

Lemma estimate_budget_validation_witness :
  Fixed.estimate_budget "Dubai" 3 (Some "platinum")
  = Ok (JObj [("error", JStr "style must be budget|standard|luxury")])
  /\ Fixed.estimate_budget "Dubai" 0 (Some "budget")
     = Ok (JObj [("error", JStr "days must be > 0")])
  /\ (forall prefs h,
        estimate_budget prefs h "Dubai" 3 1 (Some "platinum")
        = estimate_budget prefs h "Dubai" 3 1 (Some "mid"))
  /\ (forall prefs h,
        estimate_budget prefs h "Dubai" 0 1 (Some "luxe")
        = Ok (breakdown "Dubai" 0 1 "luxe" 0 0 0 0 0 0)).
Proof.
  destruct estimate_budget_validation as (H1 & H2 & H3 & H4).
  split; [| split; [| split]].
  - apply H1. reflexivity.
  - apply H2; [reflexivity | lia].
  - intros. apply H3; reflexivity.
  - intros. apply H4. rewrite !elem_of_cons. auto.
Defined.

(** [tools.fixed.py] on the specification's example of an unknown
    city: ["mid"] is not one of its styles, and at a style it knows the
    total is the style's rate times the days, without a city row. *)
Lemma estimate_budget_fixed_unknown_city :
  Fixed.estimate_budget "Unknown City" 2 (Some "mid")
  = Ok (JObj [("error", JStr "style must be budget|standard|luxury")])
  /\ Fixed.estimate_budget "Unknown City" 2 (Some "budget")
     = Ok (JObj [("city", JStr "Unknown City"); ("days", JNum 2);
                 ("style", JStr "budget"); ("rate_per_day_aed", JNum 150);
                 ("estimated_total_aed", JNum 300)]).
Proof. split; vm_compute; reflexivity. Qed.

(** C7, as the code has it.  In [tools.py] a city outside the cost
    table is priced from the General row: its amounts and its total are
    those of the city ["General"]; the specification's example has the
    General-row amounts 240, 50, 70 and 50 and the total of the same
    call for ["General"].  In [tools.fixed.py] no rate is keyed by
    city: the city is echoed and the total is the same for every
    city. *)
Theorem estimate_budget_unknown_city :
  (forall prefs h city days travellers budget_level,
      Py.assoc city CITY_COSTS = None ->
      (p <- estimate_budget prefs h city days travellers budget_level ;;
       Py.getitem p "usd_breakdown")
      = (p <- estimate_budget prefs h "General" days travellers budget_level ;;
         Py.getitem p "usd_breakdown")
      /\ (p <- estimate_budget prefs h city days travellers budget_level ;;
          Py.getitem p "total_usd")
         = (p <- estimate_budget prefs h "General" days travellers budget_level ;;
            Py.getitem p "total_usd"))
  /\ (forall prefs h,
      exists total,
        estimate_budget prefs h "Unknown City" 2 1 (Some "mid")
        = Ok (breakdown "Unknown City" 2 1 "mid" 240 50 70 50 410 total)
        /\ estimate_budget prefs h "General" 2 1 (Some "mid")
           = Ok (breakdown "General" 2 1 "mid" 240 50 70 50 410 total))
  /\ (forall city city' days style,
      (p <- Fixed.estimate_budget city days style ;;
       Py.get p "estimated_total_aed" JNull)
      = (p <- Fixed.estimate_budget city' days style ;;
         Py.get p "estimated_total_aed" JNull)).
Proof.
  split; [| split].
  - intros prefs h city days travellers budget_level Hcity.
    unfold estimate_budget. rewrite Hcity.
    change (Py.assoc "General" CITY_COSTS)
      with (Some [("budget", 50); ("mid", 120); ("luxe", 260)]).
    change (Py.subscript CITY_COSTS "General")
      with (Ok (A := list (string * Z))
               [("budget", 50); ("mid", 120); ("luxe", 260)]).
    cbn [bind from_option id].
    destruct (val_lower _) as [lvl |]; cbn [bind]; [| split; reflexivity].
    repeat (match goal with
            | |- context [Py.subscript ?t ?k] =>
                destruct (Py.subscript t k); cbn [bind]; [| split; reflexivity]
            end).
    destruct (Binary64.ceil_mul_1_10 _); cbn [bind]; split; reflexivity.
  - intros prefs h. eexists. split; reflexivity.
  - intros city city' days style. unfold Fixed.estimate_budget.
    destruct (negb _); [reflexivity |].
    destruct (days <=? 0); [reflexivity |].
    destruct (Py.subscript _ _); reflexivity.
Qed.

Lemma estimate_budget_unknown_city_witness :
  (p <- estimate_budget (PreferencesStore.Build 1%positive) ∅
          "Unknown City" 2 1 (Some "mid") ;;
   Py.getitem p "total_usd")
  = (p <- estimate_budget (PreferencesStore.Build 1%positive) ∅
            "General" 2 1 (Some "mid") ;;
     Py.getitem p "total_usd").
Proof.
  destruct estimate_budget_unknown_city as (H & _ & _).
  apply (H (PreferencesStore.Build 1%positive) ∅ "Unknown City" 2 1 (Some "mid")).
  reflexivity.
Defined.

End Budget.

(** ** The preference stores *)

Section Preferences.

Import Heap.

Lemma dict_of_insert h l d : dict_of (<[l := ODict d]> h) l = d.
Proof. unfold dict_of. rewrite lookup_insert_eq. reflexivity. Qed.

(** A new object never takes the place of one in use. *)
Lemma alloc_fresh o (h : heap) : h !! (alloc o h).1 = None.
Proof.
  unfold alloc. simpl. apply not_elem_of_dom. apply is_fresh.
Qed.

Lemma alloc_other o (h : heap) l :
  is_Some (h !! l) -> (alloc o h).1 <> l /\ (alloc o h).2 !! l = h !! l.
Proof.
  intros [x Hx]. pose proof (alloc_fresh o h) as Hf.
  assert (Hne : (alloc o h).1 <> l) by (intros E; rewrite E in Hf; congruence).
  split; [exact Hne |]. unfold alloc in *. simpl in *.
  apply lookup_insert_ne. exact Hne.
Qed.

(** [dict(d)] holds the entries of [d]. *)
Lemma copy_dict_contents l (h : heap) :
  dict_of (copy_dict l h).2 (copy_dict l h).1 = dict_of h l.
Proof. unfold copy_dict, alloc. simpl. apply dict_of_insert. Qed.

Lemma mutate_other l op (h : heap) l' :
  l <> l' -> mutate l op h !! l' = h !! l'.
Proof.
  intros H. unfold mutate. destruct (h !! l) as [[d | xs] |]; try reflexivity.
  apply lookup_insert_ne. exact H.
Qed.

Lemma mutate_all_other l ops (h : heap) l' :
  l <> l' -> mutate_all l ops h !! l' = h !! l'.
Proof.
  intros H. unfold mutate_all. revert h.
  induction ops as [| op ops IH]; intros h; simpl; [reflexivity |].
  rewrite IH. apply mutate_other. exact H.
Qed.

(** The copy is a new dictionary: whatever is done to it, the
    dictionary it was copied from keeps its entries. *)
Lemma copy_dict_independent l (h : heap) ops :
  is_Some (h !! l) ->
  (copy_dict l h).1 <> l
  /\ mutate_all (copy_dict l h).1 ops (copy_dict l h).2 !! l = h !! l.
Proof.
  intros Hl. unfold copy_dict.
  destruct (alloc_other (ODict (dict_of h l)) h l Hl) as [Hne Hsame].
  split; [exact Hne |].
  rewrite mutate_all_other by exact Hne. exact Hsame.
Qed.

Lemma dict_of_ext (h h' : heap) l : h' !! l = h !! l -> dict_of h' l = dict_of h l.
Proof. intros H. unfold dict_of. rewrite H. reflexivity. Qed.

(** *** [tools.py] *)

Lemma tools_get_set self k v d h :
  Tools.PreferencesStore.get self k d (Tools.PreferencesStore.set self k v h) = v.
Proof.
  unfold Tools.PreferencesStore.get, Tools.PreferencesStore.set.
  rewrite dict_of_insert, lookup_insert_eq. reflexivity.
Qed.

Lemma tools_get_update self upd k v d h :
  upd !! k = Some v ->
  Tools.PreferencesStore.get self k d (Tools.PreferencesStore.update self upd h) = v.
Proof.
  intros H. unfold Tools.PreferencesStore.get, Tools.PreferencesStore.update.
  rewrite dict_of_insert. erewrite lookup_union_Some_l by exact H. reflexivity.
Qed.

Lemma tools_run_unwritten self c k d h :
  Tools.PreferencesStore.writes k c = false ->
  Tools.PreferencesStore.get self k d (Tools.PreferencesStore.run self h c)
  = Tools.PreferencesStore.get self k d h.
Proof.
  intros H. unfold Tools.PreferencesStore.get.
  destruct c as [key value | upd]; simpl in *.
  - unfold Tools.PreferencesStore.set. rewrite dict_of_insert.
    rewrite lookup_insert_ne; [reflexivity |].
    intros ->. rewrite String.eqb_refl in H. discriminate.
  - unfold Tools.PreferencesStore.update. rewrite dict_of_insert.
    apply bool_decide_eq_false in H.
    rewrite lookup_union_r; [reflexivity |].
    destruct (upd !! k) eqn:E; [| reflexivity].
    exfalso. apply H. eexists; reflexivity.
Qed.

Lemma tools_session_unwritten self calls k d h :
  forallb (fun c => negb (Tools.PreferencesStore.writes k c)) calls = true ->
  Tools.PreferencesStore.get self k d (Tools.PreferencesStore.session self calls h)
  = Tools.PreferencesStore.get self k d h.
Proof.
  unfold Tools.PreferencesStore.session. revert h.
  induction calls as [| c calls IH]; intros h H; simpl in *; [reflexivity |].
  apply andb_true_iff in H as [Hc Hrest].
  rewrite IH by exact Hrest. apply tools_run_unwritten.
  apply negb_true_iff. exact Hc.
Qed.

Lemma tools_run_other self c (h : heap) l :
  l <> Tools.PreferencesStore._store self ->
  Tools.PreferencesStore.run self h c !! l = h !! l.
Proof.
  intros H. destruct c; simpl;
    unfold Tools.PreferencesStore.set, Tools.PreferencesStore.update;
    apply lookup_insert_ne; congruence.
Qed.

Lemma tools_session_other self calls (h : heap) l :
  l <> Tools.PreferencesStore._store self ->
  Tools.PreferencesStore.session self calls h !! l = h !! l.
Proof.
  intros H. unfold Tools.PreferencesStore.session. revert h.
  induction calls as [| c calls IH]; intros h; simpl; [reflexivity |].
  rewrite IH. apply tools_run_other. exact H.
Qed.

(** *** [tools.fixed.py] *)

Lemma foldl_insert_lookup (kwargs : list (string * val)) (d : gmap string val) k :
  foldl (fun d kv => <[kv.1 := kv.2]> d) d kwargs !! k
  = match Py.assoc k (rev kwargs) with
    | Some v => Some v
    | None => d !! k
    end.
Proof.
  revert d. induction kwargs as [| [k' v'] kwargs IH] using rev_ind; intros d.
  - reflexivity.
  - rewrite foldl_app, rev_app_distr. simpl.
    destruct (String.eqb_spec k k') as [-> | Hne].
    + apply lookup_insert_eq.
    + rewrite lookup_insert_ne by congruence. apply IH.
Qed.

Lemma fixed_set_many_dict self kwargs h :
  dict_of (Fixed.PreferencesStore.set_many self kwargs h).2
          (Fixed.PreferencesStore._store self)
  = foldl (fun d kv => <[kv.1 := kv.2]> d)
          (dict_of h (Fixed.PreferencesStore._store self)) kwargs.
Proof. unfold Fixed.PreferencesStore.set_many. simpl. apply dict_of_insert. Qed.

Lemma fixed_set_many_other self kwargs (h : heap) l :
  l <> Fixed.PreferencesStore._store self ->
  (Fixed.PreferencesStore.set_many self kwargs h).2 !! l = h !! l.
Proof.
  intros H. unfold Fixed.PreferencesStore.set_many. simpl.
  apply lookup_insert_ne. congruence.
Qed.

Lemma fixed_session_unwritten self calls k h :
  forallb (fun kwargs => negb (bool_decide (is_Some (Py.assoc k (rev kwargs)))))
          calls = true ->
  dict_of (Fixed.PreferencesStore.session self calls h)
          (Fixed.PreferencesStore._store self) !! k
  = dict_of h (Fixed.PreferencesStore._store self) !! k.
Proof.
  unfold Fixed.PreferencesStore.session. revert h.
  induction calls as [| kwargs calls IH]; intros h H; simpl in *; [reflexivity |].
  apply andb_true_iff in H as [Hc Hrest].
  rewrite IH by exact Hrest.
  rewrite dict_of_insert, foldl_insert_lookup.
  apply negb_true_iff, bool_decide_eq_false in Hc.
  destruct (Py.assoc k (rev kwargs)); [| reflexivity].
  exfalso. apply Hc. eexists; reflexivity.
Qed.


Lemma assoc_app_r {V} k (xs ys : list (string * V)) :
  Py.assoc k (xs ++ ys)
  = match Py.assoc k xs with
    | Some v => Some v
    | None => Py.assoc k ys
    end.
Proof.
  induction xs as [| [k' v'] xs IH]; simpl; [reflexivity |].
  destruct (String.eqb k k'); [reflexivity | exact IH].
Qed.

Lemma assoc_none_not_in {V} k (kvs : list (string * V)) :
  k ∉ map fst kvs -> Py.assoc k kvs = None.
Proof.
  induction kvs as [| [k' v'] kvs IH]; simpl; [reflexivity |].
  intros H. apply not_elem_of_cons in H as [Hne Hrest].
  destruct (String.eqb_spec k k'); [contradiction | apply IH; exact Hrest].
Qed.

(** With keyword arguments, whose names are distinct, the value bound
    last to a name is the value passed under it. *)
Lemma assoc_rev_nodup (kwargs : list (string * val)) k v :
  NoDup (map fst kwargs) -> (k, v) ∈ kwargs ->
  Py.assoc k (rev kwargs) = Some v.
Proof.
  induction kwargs as [| [k' v'] kwargs IH]; simpl; intros Hnd Hin.
  - inversion Hin.
  - apply NoDup_cons in Hnd as [Hk' Hnd].
    rewrite assoc_app_r.
    apply elem_of_cons in Hin as [Heq | Hin].
    + injection Heq as -> ->.
      rewrite assoc_none_not_in.
      * simpl. rewrite String.eqb_refl. reflexivity.
      * rewrite map_rev, list_elem_of_In, <- in_rev, <- list_elem_of_In.
        exact Hk'.
    + rewrite IH by assumption. reflexivity.
Qed.

(** The entries of the three dictionaries the constructors build. *)
Lemma tools_init_dict h0 :
  let '(self, h) := Tools.PreferencesStore.__init__ h0 in
  exists interests,
    dict_of h (Tools.PreferencesStore._store self)
    = <["budget_level" := VStr "mid"]>
      (<["interests" := VRef interests]> (<["food" := VNone]> ∅))
    /\ interests <> Tools.PreferencesStore._store self
    /\ h !! interests = Some (OList []).
Proof.
  unfold Tools.PreferencesStore.__init__, alloc.
  set (l1 := fresh (dom h0)).
  set (h1 := <[l1 := OList []]> h0).
  set (l2 := fresh (dom h1)). simpl.
  assert (Hne : l2 <> l1).
  { intros E. pose proof (is_fresh (dom h1)) as Hf. fold l2 in Hf.
    apply Hf. rewrite E. unfold h1. rewrite dom_insert. set_solver. }
  exists l1. split; [apply dict_of_insert |]. split; [congruence |].
  rewrite lookup_insert_ne by exact Hne. unfold h1. apply lookup_insert_eq.
Qed.

Lemma fixed_init_dict h0 :
  let '(self, h) := Fixed.PreferencesStore.__init__ h0 in
  dict_of h (Fixed.PreferencesStore._store self)
  = <["budget_level" := VStr "standard"]>
    (<["home_city" := VNone]> (<["language" := VStr "en"]> ∅)).
Proof. unfold Fixed.PreferencesStore.__init__, alloc. apply dict_of_insert. Qed.

(** Freshly built stores, read before anything is written. *)
Lemma preferences_declared_defaults :
  (let '(self, h) := Tools.PreferencesStore.__init__ ∅ in
   Tools.PreferencesStore.get self "language" VNone h = VNone
   /\ Tools.PreferencesStore.get self "budget_level" VNone h = VStr "mid")
  /\ (let '(self, h) := Fixed.PreferencesStore.__init__ ∅ in
      let '(snapshot, h') := Fixed.PreferencesStore.get_all self h in
      dict_of h' snapshot !! "budget_level" = Some (VStr "standard")
      /\ dict_of h' snapshot !! "interests" = None).
Proof. vm_compute. repeat split. Qed.


(** C8, as the code has it.  A value written under a key is the value
    read back under it, in both stores.  A key that no call of the
    session writes reads as the constructor left it: in [tools.py]
    [budget_level] is ["mid"], [interests] is an empty list, [food] is
    [None], and any other key ([home_city] and [language] among them)
    gives the default passed to [get]; in [tools.fixed.py]
    [budget_level] is ["standard"], [home_city] is [None] and
    [language] is ["en"]. *)
Theorem preferences_set_get :
  (forall self k v d h,
      Tools.PreferencesStore.get self k d
        (Tools.PreferencesStore.set self k v h) = v)
  /\ (forall self upd k v d h,
      upd !! k = Some v ->
      Tools.PreferencesStore.get self k d
        (Tools.PreferencesStore.update self upd h) = v)
  /\ (forall h0 calls d,
      let '(self, h) := Tools.PreferencesStore.__init__ h0 in
      let h' := Tools.PreferencesStore.session self calls h in
      let unwritten k :=
        forallb (fun c => negb (Tools.PreferencesStore.writes k c)) calls = true in
      (unwritten "budget_level" ->
       Tools.PreferencesStore.get self "budget_level" d h' = VStr "mid")
      /\ (unwritten "interests" ->
          exists l, Tools.PreferencesStore.get self "interests" d h' = VRef l
                    /\ h' !! l = Some (OList []))
      /\ (unwritten "food" ->
          Tools.PreferencesStore.get self "food" d h' = VNone)
      /\ (forall k, k ∉ ["budget_level"; "interests"; "food"] ->
          unwritten k ->
          Tools.PreferencesStore.get self k d h' = d))
  /\ (forall self kwargs k v h,
      NoDup (map fst kwargs) -> (k, v) ∈ kwargs ->
      let '(store, h1) := Fixed.PreferencesStore.set_many self kwargs h in
      let '(snapshot, h2) := Fixed.PreferencesStore.get_all self h1 in
      dict_of h1 store !! k = Some v /\ dict_of h2 snapshot !! k = Some v)
  /\ (forall h0 calls,
      let '(self, h) := Fixed.PreferencesStore.__init__ h0 in
      let h' := Fixed.PreferencesStore.session self calls h in
      let '(snapshot, h'') := Fixed.PreferencesStore.get_all self h' in
      let unwritten k :=
        forallb (fun kwargs =>
                   negb (bool_decide (is_Some (Py.assoc k (rev kwargs)))))
                calls = true in
      (unwritten "budget_level" ->
       dict_of h'' snapshot !! "budget_level" = Some (VStr "standard"))
      /\ (unwritten "home_city" ->
          dict_of h'' snapshot !! "home_city" = Some VNone)
      /\ (unwritten "language" ->
          dict_of h'' snapshot !! "language" = Some (VStr "en"))).
Proof.
  split; [| split; [| split; [| split]]].
  - intros. apply tools_get_set.
  - intros self upd k v d h H. apply tools_get_update. exact H.
  - intros h0 calls d.
    pose proof (tools_init_dict h0) as Hinit.
    destruct (Tools.PreferencesStore.__init__ h0) as [self h].
    destruct Hinit as (interests & Hd & Hne & Hl). cbv zeta.
    split; [| split; [| split]].
    + intros Hu. rewrite tools_session_unwritten by exact Hu.
      unfold Tools.PreferencesStore.get. rewrite Hd. reflexivity.
    + intros Hu. exists interests.
      rewrite tools_session_unwritten by exact Hu.
      rewrite tools_session_other by exact Hne.
      split; [| exact Hl].
      unfold Tools.PreferencesStore.get. rewrite Hd. reflexivity.
    + intros Hu. rewrite tools_session_unwritten by exact Hu.
      unfold Tools.PreferencesStore.get. rewrite Hd. reflexivity.
    + intros k Hk Hu. rewrite tools_session_unwritten by exact Hu.
      unfold Tools.PreferencesStore.get. rewrite Hd.
      rewrite !not_elem_of_cons in Hk. destruct Hk as (H1 & H2 & H3 & _).
      rewrite !lookup_insert_ne by congruence. reflexivity.
  - intros self kwargs k v h Hnd Hin.
    pose proof (fixed_set_many_dict self kwargs h) as Hd.
    destruct (Fixed.PreferencesStore.set_many self kwargs h) as [store h1] eqn:E.
    assert (Hs : store = Fixed.PreferencesStore._store self).
    { unfold Fixed.PreferencesStore.set_many in E. injection E as <- _. reflexivity. }
    pose proof (copy_dict_contents (Fixed.PreferencesStore._store self) h1) as Hc.
    unfold Fixed.PreferencesStore.get_all.
    destruct (copy_dict _ h1) as [snapshot h2]. simpl in Hc, Hd. subst store.
    rewrite Hc, Hd, foldl_insert_lookup.
    rewrite (assoc_rev_nodup kwargs k v Hnd Hin). split; reflexivity.
  - intros h0 calls.
    pose proof (fixed_init_dict h0) as Hinit.
    destruct (Fixed.PreferencesStore.__init__ h0) as [self h].
    pose proof (copy_dict_contents (Fixed.PreferencesStore._store self)
                  (Fixed.PreferencesStore.session self calls h)) as Hc.
    unfold Fixed.PreferencesStore.get_all.
    destruct (copy_dict _ _) as [snapshot h'']. simpl in Hc. cbv zeta.
    rewrite Hc.
    split; [| split]; intros Hu;
      rewrite fixed_session_unwritten by exact Hu; rewrite Hinit; reflexivity.
Qed.

Lemma preferences_set_get_witness :
  Tools.PreferencesStore.get (Tools.PreferencesStore.Build 1%positive)
    "budget_level" VNone
    (Tools.PreferencesStore.update (Tools.PreferencesStore.Build 1%positive)
       {["budget_level" := VStr "luxe"]} ∅)
  = VStr "luxe".
Proof.
  destruct preferences_set_get as (_ & H & _).
  apply H. reflexivity.
Defined.

(** C9.  A call of [tools.fixed.py]'s [set_preferences] leaves every
    entry of the store other than [budget_level], [home_city] and
    [language] as it was; each of the three is replaced by its argument
    when that argument is a non-empty string, and is left as it was
    when the argument is [None] or empty; every other object of the heap
    is untouched. *)
Theorem set_preferences_frame PREFS budget_level home_city language h :
  let h' := (Fixed.set_preferences PREFS budget_level home_city language h).2 in
  let before := dict_of h (Fixed.PreferencesStore._store PREFS) in
  let after := dict_of h' (Fixed.PreferencesStore._store PREFS) in
  let written key arg :=
    after !! key = match Fixed.given arg with
                   | Some s => Some (VStr s)
                   | None => before !! key
                   end in
  (forall k, k ∉ ["budget_level"; "home_city"; "language"] ->
             after !! k = before !! k)
  /\ written "budget_level" budget_level
  /\ written "home_city" home_city
  /\ written "language" language
  /\ (forall l, l <> Fixed.PreferencesStore._store PREFS ->
                is_Some (h !! l) -> h' !! l = h !! l).
Proof.
  cbv zeta. unfold Fixed.set_preferences, Fixed.get_preferences.
  set (updates := Fixed.update_if "language" language
                    (Fixed.update_if "home_city" home_city
                       (Fixed.update_if "budget_level" budget_level []))).
  pose proof (fixed_set_many_dict PREFS updates h) as Hd.
  pose proof (fixed_set_many_other PREFS updates h) as Ho.
  destruct (Fixed.PreferencesStore.set_many PREFS updates h) as [store h1] eqn:E.
  simpl in Hd, Ho.
  assert (Hstore : is_Some (h1 !! Fixed.PreferencesStore._store PREFS)).
  { unfold Fixed.PreferencesStore.set_many in E. injection E as _ <-.
    rewrite lookup_insert_eq. eexists; reflexivity. }
  unfold Fixed.PreferencesStore.get_all, copy_dict.
  pose proof (alloc_other (ODict (dict_of h1 (Fixed.PreferencesStore._store PREFS)))
                h1) as Ha.
  destruct (alloc _ h1) as [snapshot h2]. simpl in Ha |- *.
  rewrite (dict_of_ext h1 h2) by (apply Ha; exact Hstore).
  rewrite Hd.
  assert (Hlook : forall k,
    foldl (fun d kv => <[kv.1 := kv.2]> d)
          (dict_of h (Fixed.PreferencesStore._store PREFS)) updates !! k
    = match Py.assoc k (rev updates) with
      | Some v => Some v
      | None => dict_of h (Fixed.PreferencesStore._store PREFS) !! k
      end) by (intros k; apply foldl_insert_lookup).
  split; [| split; [| split; [| split]]].
  - intros k Hk. rewrite Hlook.
    rewrite !not_elem_of_cons in Hk. destruct Hk as (H1 & H2 & H3 & _).
    unfold updates, Fixed.update_if.
    destruct (Fixed.given language), (Fixed.given home_city),
      (Fixed.given budget_level); simpl;
      repeat (match goal with
              | |- context [String.eqb k ?b] =>
                  destruct (String.eqb_spec k b); [congruence |]
              end); reflexivity.
  - rewrite Hlook. unfold updates, Fixed.update_if.
    destruct (Fixed.given language), (Fixed.given home_city),
      (Fixed.given budget_level); reflexivity.
  - rewrite Hlook. unfold updates, Fixed.update_if.
    destruct (Fixed.given language), (Fixed.given home_city),
      (Fixed.given budget_level); reflexivity.
  - rewrite Hlook. unfold updates, Fixed.update_if.
    destruct (Fixed.given language), (Fixed.given home_city),
      (Fixed.given budget_level); reflexivity.
  - intros l Hne Hl.
    assert (Hl1 : h1 !! l = h !! l) by (apply Ho; exact Hne).
    destruct (Ha l) as [_ ->]; [rewrite Hl1; exact Hl | exact Hl1].
Qed.

Lemma set_preferences_frame_witness :
  let '(PREFS, h) := Fixed.PreferencesStore.__init__ ∅ in
  let h' := (Fixed.set_preferences PREFS (Some "luxury") (Some "") None h).2 in
  dict_of h' (Fixed.PreferencesStore._store PREFS) !! "budget_level"
  = Some (VStr "luxury")
  /\ dict_of h' (Fixed.PreferencesStore._store PREFS) !! "home_city"
     = dict_of h (Fixed.PreferencesStore._store PREFS) !! "home_city"
  /\ dict_of h' (Fixed.PreferencesStore._store PREFS) !! "interests"
     = dict_of h (Fixed.PreferencesStore._store PREFS) !! "interests".
Proof.
  destruct (Fixed.PreferencesStore.__init__ ∅) as [PREFS h]. cbv zeta.
  destruct (set_preferences_frame PREFS (Some "luxury") (Some "") None h)
    as (Hother & Hb & Hc & _ & _).
  split; [exact Hb |]. split; [exact Hc |].
  apply Hother. rewrite !not_elem_of_cons, elem_of_nil.
  repeat split; [discriminate | discriminate | discriminate | tauto].
Defined.

(** C10.  [get_all] and [dump] hand out a new dictionary with the
    entries of the store's own.  Whatever sequence of item
    assignments, deletions, clears and updates is then applied to that
    dictionary, the store's dictionary is the same object with the same
    entries, a later [get] returns what it returned before, and a later
    snapshot holds what the first one held. *)
Theorem snapshot_is_a_copy :
  (forall self h ops,
      is_Some (h !! Fixed.PreferencesStore._store self) ->
      let '(snapshot, h1) := Fixed.PreferencesStore.get_all self h in
      let h2 := mutate_all snapshot ops h1 in
      snapshot <> Fixed.PreferencesStore._store self
      /\ dict_of h1 snapshot = dict_of h (Fixed.PreferencesStore._store self)
      /\ h2 !! Fixed.PreferencesStore._store self
         = h !! Fixed.PreferencesStore._store self
      /\ (let '(later, h3) := Fixed.PreferencesStore.get_all self h2 in
          dict_of h3 later = dict_of h (Fixed.PreferencesStore._store self)))
  /\ (forall self h ops,
      is_Some (h !! Tools.PreferencesStore._store self) ->
      let '(snapshot, h1) := Tools.PreferencesStore.dump self h in
      let h2 := mutate_all snapshot ops h1 in
      snapshot <> Tools.PreferencesStore._store self
      /\ dict_of h1 snapshot = dict_of h (Tools.PreferencesStore._store self)
      /\ h2 !! Tools.PreferencesStore._store self
         = h !! Tools.PreferencesStore._store self
      /\ (forall k d, Tools.PreferencesStore.get self k d h2
                      = Tools.PreferencesStore.get self k d h)
      /\ (let '(later, h3) := Tools.PreferencesStore.dump self h2 in
          dict_of h3 later = dict_of h (Tools.PreferencesStore._store self))).
Proof.
  split.
  - intros self h ops Hs.
    unfold Fixed.PreferencesStore.get_all.
    pose proof (copy_dict_contents (Fixed.PreferencesStore._store self) h) as Hc.
    pose proof (copy_dict_independent (Fixed.PreferencesStore._store self) h ops Hs)
      as [Hne Hsame].
    destruct (copy_dict _ h) as [snapshot h1].
    cbn [fst snd] in Hc, Hne, Hsame. cbv beta iota zeta.
    split; [exact Hne |]. split; [exact Hc |]. split; [exact Hsame |].
    pose proof (copy_dict_contents (Fixed.PreferencesStore._store self)
                  (mutate_all snapshot ops h1)) as Hc2.
    destruct (copy_dict _ (mutate_all snapshot ops h1)) as [later h3].
    cbn [fst snd] in Hc2. rewrite Hc2. apply dict_of_ext. exact Hsame.
  - intros self h ops Hs.
    unfold Tools.PreferencesStore.dump.
    pose proof (copy_dict_contents (Tools.PreferencesStore._store self) h) as Hc.
    pose proof (copy_dict_independent (Tools.PreferencesStore._store self) h ops Hs)
      as [Hne Hsame].
    destruct (copy_dict _ h) as [snapshot h1].
    cbn [fst snd] in Hc, Hne, Hsame. cbv beta iota zeta.
    split; [exact Hne |]. split; [exact Hc |]. split; [exact Hsame |].
    split.
    + intros k d. unfold Tools.PreferencesStore.get.
      rewrite (dict_of_ext h _ _ Hsame). reflexivity.
    + pose proof (copy_dict_contents (Tools.PreferencesStore._store self)
                    (mutate_all snapshot ops h1)) as Hc2.
      destruct (copy_dict _ (mutate_all snapshot ops h1)) as [later h3].
      cbn [fst snd] in Hc2. rewrite Hc2. apply dict_of_ext. exact Hsame.
Qed.

Lemma snapshot_is_a_copy_witness :
  let '(self, h) := Tools.PreferencesStore.__init__ ∅ in
  let '(snapshot, h1) := Tools.PreferencesStore.dump self h in
  let h2 := mutate_all snapshot
              [SetItem "budget_level" (VStr "luxe"); DelItem "food"; Clear] h1 in
  Tools.PreferencesStore.get self "budget_level" VNone h2
  = Tools.PreferencesStore.get self "budget_level" VNone h.
Proof.
  pose proof (proj2 snapshot_is_a_copy) as H.
  pose proof (tools_init_dict ∅) as Hinit.
  destruct (Tools.PreferencesStore.__init__ ∅) as [self h].
  destruct Hinit as (interests & Hd & _ & _).
  assert (Hs : is_Some (h !! Tools.PreferencesStore._store self)).
  { unfold dict_of in Hd.
    destruct (h !! Tools.PreferencesStore._store self) as [o |];
      [eexists; reflexivity |].
    exfalso. apply (f_equal (fun m => m !! "food")) in Hd.
    rewrite lookup_empty in Hd. discriminate. }
  specialize (H self h [SetItem "budget_level" (VStr "luxe"); DelItem "food"; Clear] Hs).
  destruct (Tools.PreferencesStore.dump self h) as [snapshot h1].
  cbv zeta in H |- *. destruct H as (_ & _ & _ & Hget & _). apply Hget.
Defined.

(** The copy is shallow: the list stored under [interests] is one
    object, reached from the store and from the snapshot alike, and an
    element appended to it through the snapshot is seen through the
    store. *)
Lemma dump_shares_stored_lists :
  let '(self, h) := Tools.PreferencesStore.__init__ ∅ in
  let '(snapshot, h1) := Tools.PreferencesStore.dump self h in
  exists l,
    dict_of h1 snapshot !! "interests" = Some (VRef l)
    /\ Tools.PreferencesStore.get self "interests" VNone h1 = VRef l
    /\ list_append l (VStr "museums") h1 !! l = Some (OList [VStr "museums"]).
Proof. vm_compute. eexists. repeat split. Qed.

(** [set_many] hands out the store's own dictionary, not a copy. *)
Lemma set_many_returns_the_store self kwargs h :
  (Fixed.PreferencesStore.set_many self kwargs h).1
  = Fixed.PreferencesStore._store self.
Proof. reflexivity. Qed.

End Preferences.

(** ** Strings: case folding, stripping, splitting *)

Section Strings.

Import PyStr.

Lemma to_lower_idem c : to_lower (to_lower c) = to_lower c.
Proof. destruct c as [[] [] [] [] [] [] [] []]; reflexivity. Qed.

Lemma isspace_to_lower c : isspace (to_lower c) = isspace c.
Proof. destruct c as [[] [] [] [] [] [] [] []]; reflexivity. Qed.

Lemma lower_idem s : lower (lower s) = lower s.
Proof. induction s as [|c s IH]; simpl; [done|]. by rewrite to_lower_idem, IH. Qed.

Lemma lower_app s t : lower (s +:+ t) = lower s +:+ lower t.
Proof. induction s as [|c s IH]; simpl; [done|]. by rewrite IH. Qed.

Lemma lower_blank s : blank s = true -> lower s = s.
Proof.
  induction s as [|c s IH]; simpl; [done|].
  intros [Hc Hs]%andb_prop. rewrite (IH Hs). f_equal.
  revert Hc. destruct c as [[] [] [] [] [] [] [] []]; (reflexivity || discriminate).
Qed.

Lemma lower_lstrip s : lstrip (lower s) = lower (lstrip s).
Proof.
  induction s as [|c s IH]; simpl; [done|].
  rewrite isspace_to_lower. by destruct (isspace c).
Qed.

Lemma lower_rstrip s : rstrip (lower s) = lower (rstrip s).
Proof.
  induction s as [|c s IH]; simpl; [done|].
  rewrite IH, isspace_to_lower.
  destruct (rstrip s); simpl; [by destruct (isspace c)|done].
Qed.

Lemma lower_strip s : strip (lower s) = lower (strip s).
Proof. unfold strip. by rewrite lower_lstrip, lower_rstrip. Qed.

Lemma lstrip_blank s : blank s = true -> lstrip s = "".
Proof.
  induction s as [|c s IH]; simpl; [done|].
  intros [Hc Hs]%andb_prop. rewrite Hc. auto.
Qed.

Lemma rstrip_blank s : blank s = true -> rstrip s = "".
Proof.
  induction s as [|c s IH]; simpl; [done|].
  intros [Hc Hs]%andb_prop. by rewrite (IH Hs), Hc.
Qed.

Lemma strip_blank s : blank s = true -> strip s = "".
Proof. intros H. unfold strip. by rewrite (lstrip_blank _ H). Qed.

Lemma lstrip_pad pre s : blank pre = true -> lstrip (pre +:+ s) = lstrip s.
Proof.
  induction pre as [|c pre IH]; simpl; [done|].
  intros [Hc Hs]%andb_prop. rewrite Hc. auto.
Qed.

Lemma rstrip_pad s post : blank post = true -> rstrip (s +:+ post) = rstrip s.
Proof.
  intros H. induction s as [|c s IH]; simpl; [by apply rstrip_blank|].
  by rewrite IH.
Qed.

Lemma strip_pad pre s post :
  blank pre = true -> blank post = true ->
  strip (pre +:+ s +:+ post) = strip s.
Proof.
  intros Hpre Hpost. unfold strip. rewrite (lstrip_pad _ _ Hpre).
  induction s as [|c s IH].
  - change ("" +:+ post) with post. by rewrite (lstrip_blank _ Hpost).
  - change (String c s +:+ post) with (String c (s +:+ post)).
    cbn [lstrip]. destruct (isspace c); [done|].
    change (String c (s +:+ post)) with (String c s +:+ post).
    by apply rstrip_pad.
Qed.

Lemma to_upper_to_lower c : isupper c = true -> to_upper (to_lower c) = c.
Proof. destruct c as [[] [] [] [] [] [] [] []]; (reflexivity || discriminate). Qed.

Lemma title_from_lower b s : title_from b (lower s) = title_from b s.
Proof.
  revert b. induction s as [|c s IH]; intros b; simpl; [done|].
  rewrite !IH.
  destruct c as [[] [] [] [] [] [] [] []]; destruct b; reflexivity.
Qed.

Lemma title_lower s : title (lower s) = title s.
Proof. apply title_from_lower. Qed.

(** Splitting at a character and joining with it are inverse. *)
Lemma split_nonempty sep s : split sep s <> [].
Proof.
  destruct s as [|c s]; simpl; [done|].
  destruct (split sep s); [done|]. by destruct (Ascii.eqb c sep).
Qed.

Lemma join_cons_char sep c hd tl :
  join sep (String c hd :: tl) = String c (join sep (hd :: tl)).
Proof. by destruct tl. Qed.

Lemma join_split sep s : join (String sep "") (split sep s) = s.
Proof.
  induction s as [|c s IH]; [done|]. cbn [split].
  pose proof (split_nonempty sep s) as Hne.
  destruct (split sep s) as [|hd tl]; [done|].
  destruct (Ascii.eqb_spec c sep) as [->|Hc].
  - change (join (String sep "") ("" :: hd :: tl))
      with (String sep (join (String sep "") (hd :: tl))).
    by rewrite IH.
  - by rewrite join_cons_char, IH.
Qed.

Lemma contains_cons_false k c s :
  contains k (String c s) = false -> contains k s = false.
Proof. simpl. by intros [_ H]%orb_false_elim. Qed.

Lemma prefix_char_false sep c s :
  String.prefix (String sep "") (String c s) = false -> c <> sep.
Proof.
  intros H ->. simpl in H. destruct (ascii_dec sep sep); [|done].
  by destruct s.
Qed.

(** A string without the separator is one part. *)
Lemma split_free sep s :
  contains (String sep "") s = false -> split sep s = [s].
Proof.
  induction s as [|c s IH]; [done|]. cbn [contains split].
  intros [Hp Hs]%orb_false_elim. rewrite (IH Hs).
  apply prefix_char_false in Hp.
  by destruct (Ascii.eqb_spec c sep).
Qed.

Lemma split_app sep s t :
  contains (String sep "") s = false ->
  split sep (s +:+ String sep t) = s :: split sep t.
Proof.
  induction s as [|c s IH].
  - intros _. change ("" +:+ String sep t) with (String sep t).
    cbn [split]. rewrite Ascii.eqb_refl.
    pose proof (split_nonempty sep t). by destruct (split sep t).
  - cbn [contains]. intros [Hp Hs]%orb_false_elim.
    change (String c s +:+ String sep t) with (String c (s +:+ String sep t)).
    cbn [split]. rewrite (IH Hs).
    apply prefix_char_false in Hp.
    by destruct (Ascii.eqb_spec c sep).
Qed.

End Strings.

(** ** Knowledge search: spelling of the query, shared tips, Ras Al Khaimah *)

Section KnowledgeSearchRules.

Import Fixed.

Lemma normalize_query_pad pre q post :
  PyStr.blank pre = true -> PyStr.blank post = true ->
  normalize_query (Some (pre +:+ q +:+ post)) = normalize_query (Some q).
Proof.
  intros Hpre Hpost. unfold normalize_query. simpl.
  rewrite !lower_app, (lower_blank _ Hpre), (lower_blank _ Hpost).
  by apply strip_pad.
Qed.

(** X1.  The query is read ignoring the case of its letters and the
    white space around it: two queries that differ only in these get
    the same answer from [_search_json_kb], on every document. *)
Theorem search_ignores_case_and_padding kb pre q1 post q2 :
  PyStr.blank pre = true -> PyStr.blank post = true ->
  PyStr.lower q1 = PyStr.lower q2 ->
  _search_json_kb kb (Some (pre +:+ q1 +:+ post)) = _search_json_kb kb (Some q2).
Proof.
  intros Hpre Hpost Hq.
  assert (normalize_query (Some (pre +:+ q1 +:+ post)) = normalize_query (Some q2))
    as Hn.
  { rewrite (normalize_query_pad _ _ _ Hpre Hpost). unfold normalize_query.
    simpl. by rewrite Hq. }
  unfold _search_json_kb. by rewrite Hn.
Qed.

Lemma search_ignores_case_and_padding_witness :
  let kb := JObj [("cities",
                   JObj [("Dubai", JObj [("top_attractions",
                                          JArr [JStr "Burj Khalifa"])])])] in
  _search_json_kb kb (Some "  DUBAI Attractions ")
  = _search_json_kb kb (Some "dubai attractions").
Proof.
  intros kb.
  apply (search_ignores_case_and_padding kb "  " "DUBAI Attractions" " "
           "dubai attractions"); reflexivity.
Defined.











(** The comprehension over [relaxation], on strings. *)
Lemma mentioning_rak_filter xs :
  mentioning_rak (map JStr xs)
  = Ok (map JStr (List.filter (PyStr.contains "Ras Al Khaimah") xs)).
Proof.
  induction xs as [| x xs IH]; [done|].
  cbn [map mentioning_rak Py.contains bind List.filter]. rewrite IH. cbn [bind].
  by destruct (PyStr.contains "Ras Al Khaimah" x).
Qed.

(** X3.  When the city found in the query is Ras Al Khaimah, by name
    or by the letters "rak", a query about attractions is answered
    from the [relaxation] activities alone: those that mention
    "Ras Al Khaimah", or one stock entry when there is none.  The
    [top_attractions] of a "Ras Al Khaimah" city entry are not used. *)
Theorem search_ras_al_khaimah_attractions top cs acts xs query :
  from_option id (JObj []) (Py.assoc "cities" top) = JObj cs ->
  from_option id (JObj []) (Py.assoc "activities" top) = JObj acts ->
  from_option id (JArr []) (Py.assoc "relaxation" acts) = JArr (map JStr xs) ->
  detect_city (JObj cs) (normalize_query query) = Ok (Some "Ras Al Khaimah") ->
  asks_tips (normalize_query query) = false ->
  asks_attractions (normalize_query query) = true ->
  _search_json_kb (JObj top) query
  = Ok (JObj [("city", JStr "Ras Al Khaimah");
              ("top_attractions",
               JArr (map JStr
                 (match List.filter (PyStr.contains "Ras Al Khaimah") xs with
                  | [] => ["Beach resorts in Ras Al Khaimah"]
                  | recs => recs
                  end)))]).
Proof.
  intros Hcs Hacts Hrel Hcity Htips Hattr.
  unfold _search_json_kb. cbn [Py.get bind]. rewrite Hcs, Hacts, Hcity.
  cbn [bind]. rewrite Htips, Hattr. unfold top_attractions.
  rewrite bool_decide_eq_true_2 by done.
  cbn [Py.get bind]. rewrite Hrel. cbn [Py.iter bind].
  rewrite mentioning_rak_filter. cbn [bind].
  by destruct (List.filter (PyStr.contains "Ras Al Khaimah") xs).
Qed.

Lemma search_ras_al_khaimah_attractions_witness :
  _search_json_kb
    (JObj [("cities",
            JObj [("Ras Al Khaimah",
                   JObj [("top_attractions", JArr [JStr "Jebel Jais"])])]);
           ("activities",
            JObj [("relaxation",
                   JArr [JStr "Spa day in Ras Al Khaimah";
                         JStr "Beach day in Ajman"])])])
    (Some "Any attraction near a karak stand?")
  = Ok (JObj [("city", JStr "Ras Al Khaimah");
              ("top_attractions", JArr [JStr "Spa day in Ras Al Khaimah"])]).
Proof.
  eapply (search_ras_al_khaimah_attractions
           [("cities",
             JObj [("Ras Al Khaimah",
                    JObj [("top_attractions", JArr [JStr "Jebel Jais"])])]);
            ("activities",
             JObj [("relaxation",
                    JArr [JStr "Spa day in Ras Al Khaimah";
                          JStr "Beach day in Ajman"])])]
           _ _ ["Spa day in Ras Al Khaimah"; "Beach day in Ajman"]
           (Some "Any attraction near a karak stand?")); reflexivity.
Defined.

End KnowledgeSearchRules.

Section KnowledgeSearchLowerRules.

Import Fixed.

(** X4.  The rules below the attraction rule.  When the query asks
    for no tips, and either names no attraction keyword or no city,
    a general-information keyword gives the [general_info] of the
    document; failing that, the first of adventure, culture,
    relaxation found in the query gives that list of activities, empty
    when the document has none under the name. *)
Theorem search_general_and_activities top cs acts query :
  from_option id (JObj []) (Py.assoc "cities" top) = JObj cs ->
  from_option id (JObj []) (Py.assoc "activities" top) = JObj acts ->
  asks_tips (normalize_query query) = false ->
  asks_attractions (normalize_query query) = false
  \/ detect_city (JObj cs) (normalize_query query) = Ok None ->
  (asks_general (normalize_query query) = true ->
   _search_json_kb (JObj top) query
   = Ok (JObj [("general_info",
                from_option id (JObj []) (Py.assoc "general_info" top))]))
  /\ (forall bucket,
        asks_general (normalize_query query) = false ->
        asks_bucket (normalize_query query) = Some bucket ->
        bucket ∈ ["adventure"; "culture"; "relaxation"]
        /\ _search_json_kb (JObj top) query
           = Ok (JObj [(bucket,
                        from_option id (JArr []) (Py.assoc bucket acts))])).
Proof.
  intros Hcs Hacts Htips Hnone.
  assert (exists city,
             detect_city (JObj cs) (normalize_query query) = Ok city
             /\ (if asks_attractions (normalize_query query)
                 then top_attractions (JObj cs) (JObj acts) city
                 else Ok None) = Ok None) as (city & Hcity & Hfound).
  { destruct Hnone as [Hattr | Hcity].
    - rewrite Hattr.
      destruct (detect_city_cases cs (normalize_query query))
        as [(c & -> & _) | ->]; eexists; by split.
    - exists None. split; [done|]. by destruct (asks_attractions _). }
  unfold _search_json_kb. cbn [Py.get bind]. rewrite Hcs, Hacts, Hcity.
  cbn [bind]. rewrite Htips, Hfound. cbn [bind]. split.
  - by intros ->.
  - intros bucket -> Hbucket. rewrite Hbucket. cbn [bind]. split; [|done].
    unfold asks_bucket in Hbucket. apply find_some in Hbucket as [Hin _].
    by apply list_elem_of_In.
Qed.

Lemma search_general_and_activities_witness :
  _search_json_kb
    (JObj [("activities", JObj [("adventure", JArr [JStr "Dune bashing"])]);
           ("general_info", JObj [("currency", JStr "AED")])])
    (Some "Which currency for the adventure attractions?")
  = Ok (JObj [("general_info", JObj [("currency", JStr "AED")])]).
Proof.
  eapply (search_general_and_activities
            [("activities", JObj [("adventure", JArr [JStr "Dune bashing"])]);
             ("general_info", JObj [("currency", JStr "AED")])]
            _ _ (Some "Which currency for the adventure attractions?"));
    try reflexivity.
  by right.
Defined.

End KnowledgeSearchLowerRules.

(** ** Prayer times: the date, the city, the status code *)

Section PrayerTimesInputs.

Import Fixed.

Lemma iso_join yyyy mm dd : iso yyyy mm dd = PyStr.join "-" [yyyy; mm; dd].
Proof. reflexivity. Qed.

(** The date printed in the answer. *)
Lemma date_fields_iso now s :
  let '(yyyy, mm, dd) := date_fields now s in
  iso yyyy mm dd
  = if bool_decide (List.length (PyStr.split "-" s) = 3%nat) then s
    else isoformat now.
Proof.
  unfold date_fields. pose proof (join_split "-" s) as Hjoin.
  destruct (PyStr.split "-" s) as [|yyyy [|mm [|dd [|]]]]; try reflexivity.
  rewrite bool_decide_eq_true_2 by done. by rewrite iso_join.
Qed.

Lemma split_iso yyyy mm dd :
  PyStr.contains "-" yyyy = false ->
  PyStr.contains "-" mm = false ->
  PyStr.contains "-" dd = false ->
  PyStr.split "-" (iso yyyy mm dd) = [yyyy; mm; dd].
Proof.
  intros Hy Hm Hd. unfold iso.
  change ("-" +:+ mm +:+ "-" +:+ dd) with (String "-" (mm +:+ String "-" dd)).
  rewrite (split_app "-" yyyy _ Hy), (split_app "-" mm _ Hm).
  by rewrite (split_free "-" dd Hd).
Qed.

Lemma iso_truthy yyyy mm dd : PyStr.truthy (iso yyyy mm dd) = true.
Proof. unfold iso. by destruct yyyy. Qed.

(** The payload's ["date"], on both paths. *)
Lemma prayer_times_payload net now city date :
  exists payload,
    prayer_times net now city date = Ok payload
    /\ let '(yyyy, mm, dd) := date_fields now (effective_date now date) in
       Py.getitem payload "date" = Ok (JStr (iso yyyy mm dd))
       /\ Py.getitem payload "city" = Ok (JStr (normalize_city city)).
Proof.
  unfold prayer_times.
  destruct (date_fields now (effective_date now date)) as [[yyyy mm] dd].
  destruct (extract_cases
              (net (timings_request (normalize_city city) yyyy mm dd)))
    as [(timings & out & Hne & _ & _ & ->) | [_ ->]]; cbn [try_except bind].
  - eexists. split; [reflexivity|]. by split.
  - destruct (fallback_row_canonical (normalize_city city)) as (row & -> & _).
    cbn [bind]. eexists. split; [reflexivity|]. by split.
Qed.

(** X5.  The date of the answer.  An argument that splits at its
    dashes into exactly three parts is echoed as given, whatever the
    parts are; a missing or empty argument and every other string
    give today's date. *)
Theorem prayer_times_date_field net now city date :
  exists payload,
    prayer_times net now city date = Ok payload
    /\ Py.getitem payload "date"
       = Ok (JStr match date with
                  | Some s =>
                      if bool_decide (List.length (PyStr.split "-" s) = 3%nat)
                      then s else isoformat now
                  | None => isoformat now
                  end).
Proof.
  destruct (prayer_times_payload net now city date) as (payload & Hp & H).
  exists payload. split; [done|].
  pose proof (date_fields_iso now (effective_date now date)) as Hiso.
  destruct (date_fields now (effective_date now date)) as [[yyyy mm] dd].
  destruct H as [-> _]. do 2 f_equal. rewrite Hiso. clear.
  assert (forall s, PyStr.truthy s = false ->
                    bool_decide (List.length (PyStr.split "-" s) = 3%nat) = false)
    as Hempty by (by intros []).
  destruct date as [s|]; cbn [effective_date].
  - destruct (PyStr.truthy s) eqn:Hs; [done|]. rewrite (Hempty s Hs).
    by destruct (bool_decide _).
  - by destruct (bool_decide _).
Qed.

(** X6.  With a date [yyyy-mm-dd] the tool sends one request: the
    normalised city, the date turned round to [dd-mm-yyyy], four
    seconds of time-out.  The answer depends on nothing else: not on
    the clock, not on what the service would say to other requests. *)
Theorem prayer_times_one_request net net' now now' city yyyy mm dd :
  PyStr.contains "-" yyyy = false ->
  PyStr.contains "-" mm = false ->
  PyStr.contains "-" dd = false ->
  let sent :=
    Request "https://api.aladhan.com/v1/timingsByCity"
            [("city", JStr (normalize_city city));
             ("country", JStr "United Arab Emirates");
             ("method", JNum 2);
             ("date", JStr (dd +:+ "-" +:+ mm +:+ "-" +:+ yyyy))]
            4 in
  net sent = net' sent ->
  prayer_times net now city (Some (yyyy +:+ "-" +:+ mm +:+ "-" +:+ dd))
  = prayer_times net' now' city (Some (yyyy +:+ "-" +:+ mm +:+ "-" +:+ dd)).
Proof.
  intros Hy Hm Hd sent Hnet. unfold prayer_times.
  change (yyyy +:+ "-" +:+ mm +:+ "-" +:+ dd) with (iso yyyy mm dd).
  cbn [effective_date]. rewrite iso_truthy. unfold date_fields.
  rewrite (split_iso _ _ _ Hy Hm Hd).
  change (timings_request (normalize_city city) yyyy mm dd) with sent.
  by rewrite Hnet.
Qed.

Lemma prayer_times_one_request_witness :
  prayer_times (fun _ => Raise (RequestException "timed out"))
               (Today "2026" "11" "03") (Some "sharjah") (Some "2027-01-15")
  = prayer_times (fun rq => if (timeout rq =? 4) then Raise (RequestException "timed out")
                            else Ok (Response 200 None))
                 (Today "1999" "12" "31") (Some "sharjah") (Some "2027-01-15").
Proof.
  apply (prayer_times_one_request
           (fun _ => Raise (RequestException "timed out"))
           (fun rq => if (timeout rq =? 4) then Raise (RequestException "timed out")
                      else Ok (Response 200 None))
           (Today "2026" "11" "03") (Today "1999" "12" "31")
           (Some "sharjah") "2027" "01" "15"); reflexivity.
Defined.

Lemma normalize_city_spelling pre c1 post c2 :
  PyStr.blank pre = true -> PyStr.blank post = true ->
  PyStr.lower c1 = PyStr.lower c2 ->
  normalize_city (Some (pre +:+ c1 +:+ post)) = normalize_city (Some c2).
Proof.
  intros Hpre Hpost Hc. unfold normalize_city. cbn [from_option id].
  rewrite (strip_pad _ _ _ Hpre Hpost).
  rewrite <- (title_lower (PyStr.strip c1)), <- (title_lower (PyStr.strip c2)).
  by rewrite <- !lower_strip, Hc.
Qed.

(** X7.  The city is read ignoring the case of its letters and the
    white space around it. *)
Theorem prayer_times_city_spelling net now pre c1 post c2 date :
  PyStr.blank pre = true -> PyStr.blank post = true ->
  PyStr.lower c1 = PyStr.lower c2 ->
  prayer_times net now (Some (pre +:+ c1 +:+ post)) date
  = prayer_times net now (Some c2) date.
Proof.
  intros Hpre Hpost Hc. unfold prayer_times.
  by rewrite (normalize_city_spelling _ _ _ _ Hpre Hpost Hc).
Qed.

Lemma prayer_times_city_spelling_witness :
  prayer_times (fun _ => Raise (RequestException "timed out"))
               (Today "2026" "11" "03") (Some "  aBU dHABI ") None
  = prayer_times (fun _ => Raise (RequestException "timed out"))
                 (Today "2026" "11" "03") (Some "Abu Dhabi") None.
Proof.
  apply (prayer_times_city_spelling
           (fun _ => Raise (RequestException "timed out"))
           (Today "2026" "11" "03") "  " "aBU dHABI" " " "Abu Dhabi" None);
    reflexivity.
Defined.

(** X8.  A city that is missing, empty or all white space is Dubai. *)
Theorem prayer_times_default_city net now c date :
  PyStr.blank c = true ->
  prayer_times net now (Some c) date = prayer_times net now (Some "Dubai") date
  /\ prayer_times net now None date = prayer_times net now (Some "Dubai") date.
Proof.
  intros Hc. split; [|reflexivity]. unfold prayer_times, normalize_city.
  cbn [from_option id]. by rewrite (strip_blank _ Hc).
Qed.

Lemma prayer_times_default_city_witness :
  prayer_times (fun _ => Raise (RequestException "timed out"))
               (Today "2026" "11" "03") (Some "   ") None
  = prayer_times (fun _ => Raise (RequestException "timed out"))
                 (Today "2026" "11" "03") (Some "Dubai") None.
Proof.
  apply (prayer_times_default_city
           (fun _ => Raise (RequestException "timed out"))
           (Today "2026" "11" "03") "   " None).
  reflexivity.
Defined.

(** X9.  The status code of the response is never read: the same body
    under any other status gives the same answer. *)
Theorem prayer_times_ignores_status net now city date status :
  prayer_times (fun rq => r <- net rq ;; Ok (Response status (body r)))
               now city date
  = prayer_times net now city date.
Proof.
  unfold prayer_times.
  destruct (date_fields now (effective_date now date)) as [[yyyy mm] dd].
  by destruct (net (timings_request (normalize_city city) yyyy mm dd)) as [[st b]|e].
Qed.

(** X10.  The answer carries a ["note"] exactly when the request
    failed in one of the six listed ways. *)
Theorem prayer_times_note net now city date yyyy mm dd :
  date_fields now (effective_date now date) = (yyyy, mm, dd) ->
  exists payload,
    prayer_times net now city date = Ok payload
    /\ (Py.contains "note" payload = Ok true
        <-> failed (net (timings_request (normalize_city city) yyyy mm dd))).
Proof.
  intros Hdate. unfold prayer_times. rewrite Hdate.
  destruct (extract_cases
              (net (timings_request (normalize_city city) yyyy mm dd)))
    as [(timings & out & Hne & _ & _ & Hex) | [Hfail Hex]].
  - rewrite Hex. cbn [try_except bind]. eexists. split; [reflexivity|].
    split; [discriminate|]. intros Hfail.
    apply failed_no_answer in Hfail. rewrite Hex in Hfail. discriminate.
  - rewrite Hex. cbn [bind].
    destruct (fallback_row_canonical (normalize_city city)) as (row & -> & _).
    cbn [bind]. eexists. split; [reflexivity|]. by split.
Qed.

Lemma prayer_times_note_witness :
  exists payload,
    prayer_times (fun _ => Ok (Response 500 (Some (JObj [("code", JNum 500)]))))
                 (Today "2026" "11" "03") (Some "Dubai") None
    = Ok payload
    /\ (Py.contains "note" payload = Ok true
        <-> failed (Ok (Response 500 (Some (JObj [("code", JNum 500)]))))).
Proof.
  apply (prayer_times_note
           (fun _ => Ok (Response 500 (Some (JObj [("code", JNum 500)]))))
           (Today "2026" "11" "03") (Some "Dubai") None "2026" "11" "03").
  reflexivity.
Defined.

End PrayerTimesInputs.

(** ** Budget estimates: the style, the stored level, the sidebar *)

Section BudgetInputs.

Lemma normalize_style_spelling pre s1 post s2 :
  PyStr.blank pre = true -> PyStr.blank post = true ->
  PyStr.lower s1 = PyStr.lower s2 -> s2 <> "" ->
  Fixed.normalize_style (Some (pre +:+ s1 +:+ post))
  = Fixed.normalize_style (Some s2).
Proof.
  intros Hpre Hpost Hs Hne. unfold Fixed.normalize_style. cbn [from_option id].
  assert (PyStr.truthy s2 = true) as -> by by destruct s2.
  assert (PyStr.truthy (pre +:+ s1 +:+ post) = true) as ->.
  { destruct s1; [by destruct s2|]. by destruct pre. }
  rewrite !lower_app, (lower_blank _ Hpre), (lower_blank _ Hpost), Hs.
  by apply strip_pad.
Qed.

(** X11.  The style of [estimate_budget] in [tools.fixed.py]: it is
    read ignoring case and surrounding white space; a missing or empty
    style is ["standard"]; a style of white space only is not
    defaulted but refused. *)
Theorem fixed_estimate_budget_style city days :
  (forall pre s1 post s2,
      PyStr.blank pre = true -> PyStr.blank post = true ->
      PyStr.lower s1 = PyStr.lower s2 -> s2 <> "" ->
      Fixed.estimate_budget city days (Some (pre +:+ s1 +:+ post))
      = Fixed.estimate_budget city days (Some s2))
  /\ Fixed.estimate_budget city days None
     = Fixed.estimate_budget city days (Some "standard")
  /\ Fixed.estimate_budget city days (Some "")
     = Fixed.estimate_budget city days (Some "standard")
  /\ (forall s, s <> "" -> PyStr.blank s = true ->
        Fixed.estimate_budget city days (Some s)
        = Ok (JObj [("error", JStr "style must be budget|standard|luxury")])).
Proof.
  split; [|split; [reflexivity|split; [reflexivity|]]].
  - intros pre s1 post s2 Hpre Hpost Hs Hne. unfold Fixed.estimate_budget.
    by rewrite (normalize_style_spelling _ _ _ _ Hpre Hpost Hs Hne).
  - intros s Hne Hs. unfold Fixed.estimate_budget, Fixed.normalize_style.
    cbn [from_option id].
    assert (PyStr.truthy s = true) as -> by by destruct s.
    by rewrite (lower_blank _ Hs), (strip_blank _ Hs).
Qed.

Import Tools.

Lemma level_or_pref_stored prefs h lvl :
  lvl <> "" ->
  level_or_pref prefs h (Some lvl) = VStr lvl.
Proof. intros H. unfold level_or_pref. by destruct lvl. Qed.

Lemma estimate_budget_by_level prefs h prefs' h' city days travellers level level' :
  level_or_pref prefs h level = level_or_pref prefs' h' level' ->
  estimate_budget prefs h city days travellers level
  = estimate_budget prefs' h' city days travellers level'.
Proof. intros H. unfold estimate_budget. by rewrite H. Qed.

(** X12.  An estimate asked without a level, or with the empty
    level, uses the level stored in the preferences: after
    [prefs.set("budget_level", lvl)] or [prefs.update({"budget_level":
    lvl})] it is the estimate for [lvl]; with no such entry in the
    store it is the estimate for ["mid"]. *)
Theorem estimate_budget_uses_stored_level prefs h h' city days travellers lvl :
  lvl <> "" ->
  let stored := PreferencesStore.set prefs "budget_level" (VStr lvl) h in
  let updated := PreferencesStore.update prefs {["budget_level" := VStr lvl]} h in
  estimate_budget prefs stored city days travellers None
  = estimate_budget prefs h' city days travellers (Some lvl)
  /\ estimate_budget prefs stored city days travellers (Some "")
     = estimate_budget prefs h' city days travellers (Some lvl)
  /\ estimate_budget prefs updated city days travellers None
     = estimate_budget prefs h' city days travellers (Some lvl)
  /\ (Heap.dict_of h (PreferencesStore._store prefs) !! "budget_level" = None ->
      estimate_budget prefs h city days travellers None
      = estimate_budget prefs h' city days travellers (Some "mid")).
Proof.
  intros Hne stored updated.
  split; [|split; [|split]]; try intros Habsent; apply estimate_budget_by_level;
    rewrite ?(level_or_pref_stored _ _ _ Hne); cbn [level_or_pref PyStr.truthy].
  - apply tools_get_set.
  - apply tools_get_set.
  - apply tools_get_update, lookup_singleton_eq.
  - unfold PreferencesStore.get. by rewrite Habsent.
Qed.

Lemma estimate_budget_uses_stored_level_witness :
  let '(prefs, h) := PreferencesStore.__init__ ∅ in
  estimate_budget prefs (PreferencesStore.set prefs "budget_level" (VStr "Luxe") h)
                  "Dubai" 2 1 None
  = estimate_budget prefs h "Dubai" 2 1 (Some "Luxe").
Proof.
  destruct (PreferencesStore.__init__ ∅) as [prefs h].
  apply (estimate_budget_uses_stored_level prefs h h "Dubai" 2 1 "Luxe").
  discriminate.
Defined.

(** X13.  When the stored level is not a string (a number, [None], a
    list) and no level is passed, [estimate_budget] does not answer
    with an error payload: [.lower()] raises [AttributeError] out of
    the tool. *)
Theorem estimate_budget_non_string_preference
    prefs h city days travellers v level :
  (forall s, v <> VStr s) ->
  level = None \/ level = Some "" ->
  estimate_budget prefs (PreferencesStore.set prefs "budget_level" v h)
                  city days travellers level
  = Raise AttributeError.
Proof.
  intros Hv Hlevel. unfold estimate_budget.
  assert (level_or_pref prefs (PreferencesStore.set prefs "budget_level" v h) level
          = v) as ->.
  { destruct Hlevel as [-> | ->]; cbn [level_or_pref PyStr.truthy];
      apply tools_get_set. }
  destruct v; try reflexivity. by destruct (Hv s).
Qed.

Lemma estimate_budget_non_string_preference_witness :
  let '(prefs, h) := PreferencesStore.__init__ ∅ in
  estimate_budget prefs (PreferencesStore.set prefs "budget_level" VNone h)
                  "Dubai" 2 1 None
  = Raise AttributeError.
Proof.
  destruct (PreferencesStore.__init__ ∅) as [prefs h].
  apply (estimate_budget_non_string_preference prefs h "Dubai" 2 1 VNone None);
    [discriminate | by left].
Defined.

Lemma get_after_default_budget prefs b h d :
  PreferencesStore.get prefs "budget_level" d (App.store_default_budget prefs b h)
  = PreferencesStore.get prefs "budget_level" d h.
Proof.
  unfold App.store_default_budget, PreferencesStore.get, PreferencesStore.set.
  rewrite dict_of_insert. by rewrite lookup_insert_ne.
Qed.

(** X14.  The budget chosen in the sidebar of the application is
    stored under ["default_budget"], which [estimate_budget] never
    reads: the choice changes no estimate, and in a new session an
    estimate without a level is the ["mid"] one whatever was chosen. *)
Theorem sidebar_budget_is_not_used :
  (forall prefs default_budget h city days travellers level,
      estimate_budget prefs (App.store_default_budget prefs default_budget h)
                      city days travellers level
      = estimate_budget prefs h city days travellers level)
  /\ (forall h0 default_budget city days travellers,
      let '(prefs, h) := PreferencesStore.__init__ h0 in
      estimate_budget prefs (App.store_default_budget prefs default_budget h)
                      city days travellers None
      = estimate_budget prefs h city days travellers (Some "mid")).
Proof.
  split.
  - intros. apply estimate_budget_by_level.
    destruct level as [s|]; cbn [level_or_pref]; [destruct (PyStr.truthy s)|];
      try done; apply get_after_default_budget.
  - intros h0 default_budget city days travellers.
    pose proof (tools_init_dict h0) as Hinit.
    destruct (PreferencesStore.__init__ h0) as [prefs h].
    destruct Hinit as (interests & Hd & _).
    apply estimate_budget_by_level. cbn [level_or_pref PyStr.truthy].
    rewrite get_after_default_budget. unfold PreferencesStore.get.
    by rewrite Hd.
Qed.

End BudgetInputs.

Section BudgetPersonDays.

Import Tools.

(** X15.  The estimate counts person-days: two trips with the same
    product of days and travellers have the same cost lines and the
    same total, for every city and level. *)
Theorem estimate_budget_person_days
    prefs h city days travellers days' travellers' level :
  days * travellers = days' * travellers' ->
  (p <- estimate_budget prefs h city days travellers level ;;
   Py.getitem p "usd_breakdown")
  = (p <- estimate_budget prefs h city days' travellers' level ;;
     Py.getitem p "usd_breakdown")
  /\ (p <- estimate_budget prefs h city days travellers level ;;
      Py.getitem p "total_usd")
     = (p <- estimate_budget prefs h city days' travellers' level ;;
        Py.getitem p "total_usd").
Proof.
  intros Hpd. unfold estimate_budget.
  destruct (val_lower (level_or_pref prefs h level)) as [lvl|e]; [|done].
  cbn [bind]. set (lvl' := if known_level lvl then lvl else "mid").
  destruct (Py.subscript CITY_COSTS "General") as [general|e]; [|done].
  cbn [bind].
  destruct (Py.subscript (from_option id general (Py.assoc city CITY_COSTS)) lvl')
    as [hotel|e]; [|done].
  cbn [bind]. destruct (Py.subscript TRANSPORT_DAY lvl') as [transport|e]; [|done].
  cbn [bind]. destruct (Py.subscript MEALS_DAY lvl') as [meals|e]; [|done].
  cbn [bind]. destruct (Py.subscript ATTRACTIONS lvl') as [attractions|e]; [|done].
  cbn [bind]. rewrite <- !(Z.mul_assoc _ days travellers), Hpd, !Z.mul_assoc.
  destruct (Binary64.ceil_mul_1_10 _) as [total|e]; [|done].
  split; reflexivity.
Qed.

Lemma estimate_budget_person_days_witness :
  (p <- estimate_budget (PreferencesStore.Build 1%positive) ∅
          "Dubai" 2 3 (Some "luxe") ;;
   Py.getitem p "total_usd")
  = (p <- estimate_budget (PreferencesStore.Build 1%positive) ∅
            "Dubai" 6 1 (Some "luxe") ;;
     Py.getitem p "total_usd").
Proof.
  apply (estimate_budget_person_days (PreferencesStore.Build 1%positive) ∅
           "Dubai" 2 3 6 1 (Some "luxe")).
  reflexivity.
Defined.

End BudgetPersonDays.

(** ** The preference stores: composition, sharing, replies *)

Section PreferenceStores.

Import Heap.

(** X16.  How the writes of the [tools.py] store compose: an update
    with one entry is a [set]; of two writes to a key the later one
    stands; two updates in a row are one update with the later
    dictionary laid over the earlier. *)
Theorem tools_store_writes_compose self h :
  (forall k v,
      Tools.PreferencesStore.update self {[k := v]} h
      = Tools.PreferencesStore.set self k v h)
  /\ (forall k v v',
      Tools.PreferencesStore.set self k v' (Tools.PreferencesStore.set self k v h)
      = Tools.PreferencesStore.set self k v' h)
  /\ (forall d d',
      Tools.PreferencesStore.update self d' (Tools.PreferencesStore.update self d h)
      = Tools.PreferencesStore.update self (d' ∪ d) h).
Proof.
  unfold Tools.PreferencesStore.update, Tools.PreferencesStore.set.
  split; [|split].
  - intros k v. by rewrite <- insert_union_singleton_l.
  - intros k v v'. by rewrite dict_of_insert, insert_insert_eq, insert_insert_eq.
  - intros d d'. by rewrite dict_of_insert, insert_insert_eq, (assoc_L (∪)).
Qed.

(** X17.  [dump] copies one level only.  A list stored under a key is
    the same object in the store and in the snapshot: an element
    appended to it through the snapshot is in the list the store
    refers to. *)
Theorem dump_is_shallow self h d k l xs v :
  h !! Tools.PreferencesStore._store self = Some (ODict d) ->
  d !! k = Some (VRef l) ->
  h !! l = Some (OList xs) ->
  let '(snapshot, h1) := Tools.PreferencesStore.dump self h in
  let h2 := list_append l v h1 in
  dict_of h1 snapshot !! k = Some (VRef l)
  /\ Tools.PreferencesStore.get self k VNone h2 = VRef l
  /\ h2 !! l = Some (OList (xs ++ [v])).
Proof.
  intros Hs Hk Hl. unfold Tools.PreferencesStore.dump.
  pose proof (copy_dict_contents (Tools.PreferencesStore._store self) h) as Hc.
  pose proof (alloc_other (ODict (dict_of h (Tools.PreferencesStore._store self)))
                h l ltac:(by eexists)) as [Hnl Hsl].
  pose proof (alloc_other (ODict (dict_of h (Tools.PreferencesStore._store self)))
                h (Tools.PreferencesStore._store self) ltac:(by eexists))
    as [Hns Hss].
  unfold copy_dict in *.
  destruct (alloc _ h) as [snapshot h1]. cbn [fst snd] in *. cbv beta iota zeta.
  assert (dict_of h (Tools.PreferencesStore._store self) = d) as Hd
      by (unfold dict_of; by rewrite Hs).
  assert (l <> Tools.PreferencesStore._store self) as Hne by congruence.
  unfold list_append. rewrite Hsl, Hl.
  split; [by rewrite Hc, Hd|]. split.
  - unfold Tools.PreferencesStore.get, dict_of.
    rewrite lookup_insert_ne by done. by rewrite Hss, Hs, Hk.
  - by rewrite lookup_insert_eq.
Qed.

Lemma dump_is_shallow_witness :
  let self := Tools.PreferencesStore.Build 1%positive in
  let h : heap :=
    <[1%positive := ODict {["interests" := VRef 2%positive]}]>
      {[2%positive := OList [VStr "beaches"]]} in
  let '(snapshot, h1) := Tools.PreferencesStore.dump self h in
  let h2 := list_append 2%positive (VStr "museums") h1 in
  dict_of h1 snapshot !! "interests" = Some (VRef 2%positive)
  /\ Tools.PreferencesStore.get self "interests" VNone h2 = VRef 2%positive
  /\ h2 !! 2%positive = Some (OList [VStr "beaches"; VStr "museums"]).
Proof.
  intros self h.
  apply (dump_is_shallow self h {["interests" := VRef 2%positive]} "interests"
           2%positive [VStr "beaches"] (VStr "museums")); reflexivity.
Defined.

Lemma mutate_all_dict l ops (h : heap) d :
  h !! l = Some (ODict d) ->
  mutate_all l ops h !! l
  = Some (ODict (foldl (fun d' op => apply_op op d') d ops)).
Proof.
  revert h d. induction ops as [|op ops IH]; intros h d Hl; [done|].
  cbn [mutate_all foldl]. apply IH. unfold mutate. rewrite Hl.
  by rewrite lookup_insert_eq.
Qed.

(** X18.  [set_many] hands out the store's own dictionary.  Whatever
    the receiver then does to it is done to the store, and shows in
    every later [get_all]. *)
Theorem set_many_result_is_the_store self kwargs h ops :
  let '(d, h1) := Fixed.PreferencesStore.set_many self kwargs h in
  let h2 := mutate_all d ops h1 in
  let after :=
    foldl (fun d' op => apply_op op d')
          (dict_of h1 (Fixed.PreferencesStore._store self)) ops in
  dict_of h2 (Fixed.PreferencesStore._store self) = after
  /\ (let '(snapshot, h3) := Fixed.PreferencesStore.get_all self h2 in
      dict_of h3 snapshot = after).
Proof.
  unfold Fixed.PreferencesStore.set_many. cbv beta iota zeta.
  rewrite dict_of_insert.
  set (d := foldl _ (dict_of h _) kwargs).
  set (h1 := <[_ := ODict d]> h).
  assert (h1 !! Fixed.PreferencesStore._store self = Some (ODict d)) as Hl
      by apply lookup_insert_eq.
  pose proof (mutate_all_dict _ ops _ _ Hl) as Hm.
  assert (dict_of (mutate_all (Fixed.PreferencesStore._store self) ops h1)
            (Fixed.PreferencesStore._store self)
          = foldl (fun d' op => apply_op op d') d ops) as Hd
      by (unfold dict_of; by rewrite Hm).
  split; [done|]. unfold Fixed.PreferencesStore.get_all.
  pose proof (copy_dict_contents (Fixed.PreferencesStore._store self)
                (mutate_all (Fixed.PreferencesStore._store self) ops h1)) as Hc.
  destruct (copy_dict _ _) as [snapshot h3]. cbn [fst snd] in Hc.
  by rewrite Hc.
Qed.

Lemma foldl_insert_twice (kwargs : list (string * val)) (d : gmap string val) :
  foldl (fun d kv => <[kv.1 := kv.2]> d)
        (foldl (fun d kv => <[kv.1 := kv.2]> d) d kwargs) kwargs
  = foldl (fun d kv => <[kv.1 := kv.2]> d) d kwargs.
Proof.
  apply map_eq. intros k. rewrite !foldl_insert_lookup.
  by destruct (Py.assoc k (rev kwargs)).
Qed.

Lemma get_preferences_reads PREFS (h : heap) :
  is_Some (h !! Fixed.PreferencesStore._store PREFS) ->
  (Fixed.get_preferences PREFS h).1
  = dict_of h (Fixed.PreferencesStore._store PREFS)
  /\ dict_of (Fixed.get_preferences PREFS h).2 (Fixed.PreferencesStore._store PREFS)
     = dict_of h (Fixed.PreferencesStore._store PREFS).
Proof.
  intros Hs. unfold Fixed.get_preferences, Fixed.PreferencesStore.get_all.
  pose proof (copy_dict_contents (Fixed.PreferencesStore._store PREFS) h) as Hc.
  pose proof (copy_dict_independent (Fixed.PreferencesStore._store PREFS) h [] Hs)
    as [_ Hsame].
  destruct (copy_dict _ h) as [snapshot h1]. cbn [fst snd mutate_all foldl] in *.
  split; [done|]. by apply dict_of_ext.
Qed.

(** X19.  The reply of [set_preferences] is the content of the store
    after the call.  A [get_preferences] right after it answers the
    same and leaves the store as it is, and so does the same
    [set_preferences] called a second time. *)
Theorem set_preferences_reply PREFS budget_level home_city language h :
  let '(reply, h1) :=
    Fixed.set_preferences PREFS budget_level home_city language h in
  reply = dict_of h1 (Fixed.PreferencesStore._store PREFS)
  /\ (let '(again, h2) := Fixed.get_preferences PREFS h1 in
      again = reply
      /\ dict_of h2 (Fixed.PreferencesStore._store PREFS) = reply)
  /\ (let '(again, h2) :=
        Fixed.set_preferences PREFS budget_level home_city language h1 in
      again = reply
      /\ dict_of h2 (Fixed.PreferencesStore._store PREFS) = reply).
Proof.
  unfold Fixed.set_preferences.
  set (updates := Fixed.update_if _ _ _).
  pose proof (fixed_set_many_dict PREFS updates h) as Hset.
  assert (is_Some ((Fixed.PreferencesStore.set_many PREFS updates h).2
                     !! Fixed.PreferencesStore._store PREFS)) as Hs
      by (eexists; apply lookup_insert_eq).
  destruct (Fixed.PreferencesStore.set_many PREFS updates h) as [store h0].
  cbn [fst snd] in Hset, Hs.
  pose proof (get_preferences_reads PREFS h0 Hs) as [Hreply Hstore].
  assert (is_Some ((Fixed.get_preferences PREFS h0).2
                     !! Fixed.PreferencesStore._store PREFS)) as Hs1.
  { unfold Fixed.get_preferences, Fixed.PreferencesStore.get_all, copy_dict.
    pose proof (alloc_other
                  (ODict (dict_of h0 (Fixed.PreferencesStore._store PREFS)))
                  h0 _ Hs) as [_ Hsame].
    destruct (alloc _ h0) as [snapshot h1]. cbn [fst snd] in *.
    by rewrite Hsame. }
  destruct (Fixed.get_preferences PREFS h0) as [reply h1].
  cbn [fst snd] in Hreply, Hstore, Hs1.
  split; [congruence|]. split.
  - pose proof (get_preferences_reads PREFS h1 Hs1) as [Hagain Hstore2].
    destruct (Fixed.get_preferences PREFS h1) as [again h2].
    cbn [fst snd] in *. split; congruence.
  - pose proof (fixed_set_many_dict PREFS updates h1) as Hset2.
    assert (is_Some ((Fixed.PreferencesStore.set_many PREFS updates h1).2
                       !! Fixed.PreferencesStore._store PREFS)) as Hs2
        by (eexists; apply lookup_insert_eq).
    destruct (Fixed.PreferencesStore.set_many PREFS updates h1) as [store' h1'].
    cbn [fst snd] in Hset2, Hs2.
    pose proof (get_preferences_reads PREFS h1' Hs2) as [Hagain Hstore2].
    destruct (Fixed.get_preferences PREFS h1') as [again h2].
    cbn [fst snd] in *.
    assert (dict_of h1' (Fixed.PreferencesStore._store PREFS) = reply) as Heq.
    { rewrite Hset2, Hstore, Hset, foldl_insert_twice. congruence. }
    split; congruence.
Qed.

End PreferenceStores.

(** ** Model loading and the two web searches *)

Section Providers.

Import LlmProvider.

Lemma setdefault_lookup_ne name value (env : gmap string string) k :
  k <> name -> App.setdefault name value env !! k = env !! k.
Proof.
  intros H. unfold App.setdefault. destruct (env !! name); [done|].
  by rewrite lookup_insert_ne.
Qed.

Lemma getenv_after_export model_name temperature env name default :
  name <> "MODEL_NAME" -> name <> "MODEL_TEMPERATURE" ->
  getenv (App.export_model_settings model_name temperature env) name default
  = getenv env name default.
Proof.
  intros H1 H2. unfold getenv, App.export_model_settings. cbv zeta.
  rewrite lookup_insert_ne, setdefault_lookup_ne by done.
  by rewrite lookup_insert_ne, setdefault_lookup_ne.
Qed.

(** X20.  The model name and the temperature chosen in the sidebar
    are exported as [MODEL_NAME] and [MODEL_TEMPERATURE], which the
    loaders never read: the models built are the same with and without
    them, and the chat model always has temperature 0.3. *)
Theorem loaders_ignore_sidebar_settings model_name temperature env :
  load_llm (App.export_model_settings model_name temperature env) = load_llm env
  /\ load_embeddings (App.export_model_settings model_name temperature env)
     = load_embeddings env
  /\ (forall model t,
        load_llm env = inr (ChatOpenAI model t)
        \/ load_llm env = inr (ChatGoogleGenerativeAI model t) ->
        t = "0.3").
Proof.
  split; [|split].
  - unfold load_llm. by rewrite !getenv_after_export.
  - unfold load_embeddings. by rewrite !getenv_after_export.
  - intros model t. unfold load_llm.
    destruct (String.eqb _ "openai"); [|destruct (String.eqb _ "gemini")];
      intros [H|H]; congruence.
Qed.

(** X21.  [load_llm] and [load_embeddings] refuse the same
    providers: each raises [RuntimeError], naming the provider, exactly
    when [PROVIDER] lower-cased is neither ["openai"] nor ["gemini"]
    (it is not trimmed, and ["gemini"] is meant when it is not set).
    Otherwise each goes on to the constructor call of that provider;
    whether the import and the constructor then succeed is outside
    this model. *)
Theorem loaders_refuse_the_same_providers env :
  let provider := PyStr.lower (getenv env "PROVIDER" "gemini") in
  let unknown := provider <> "openai" /\ provider <> "gemini" in
  ((exists e, load_llm env = inl e) <-> unknown)
  /\ ((exists e, load_embeddings env = inl e) <-> unknown)
  /\ (unknown ->
      load_llm env = inl (RuntimeError ("Unknown provider " +:+ provider))
      /\ load_embeddings env
         = inl (RuntimeError
                  ("Unknown provider for embeddings '" +:+ provider +:+ "'.")))
  /\ (provider = "openai" ->
      load_llm env
      = inr (ChatOpenAI (getenv env "OPENAI_MODEL" "gpt-4o-mini") "0.3")
      /\ load_embeddings env = inr (OpenAIEmbeddings "text-embedding-3-small"))
  /\ (provider = "gemini" ->
      load_llm env
      = inr (ChatGoogleGenerativeAI
               (getenv env "GEMINI_MODEL" "gemini-1.5-flash") "0.3")
      /\ load_embeddings env
         = inr (GoogleGenerativeAIEmbeddings "models/embeddings-001"))
  /\ (env !! "PROVIDER" = None -> provider = "gemini").
Proof.
  intros provider unknown. subst unknown.
  unfold load_llm, load_embeddings. fold provider.
  destruct (String.eqb_spec provider "openai") as [Ho | Ho];
    destruct (String.eqb_spec provider "gemini") as [Hg | Hg];
    try (rewrite Ho in Hg; discriminate).
  - split; [split; [by intros [e He] | intros [? _]; contradiction] |].
    split; [split; [by intros [e He] | intros [? _]; contradiction] |].
    split; [intros [? _]; contradiction |].
    split; [done |]. split; [intros; congruence |].
    intros Hunset. subst provider. revert Ho. unfold getenv.
    rewrite Hunset. discriminate.
  - split; [split; [by intros [e He] | intros [_ ?]; contradiction] |].
    split; [split; [by intros [e He] | intros [_ ?]; contradiction] |].
    split; [intros [_ ?]; contradiction |].
    split; [intros; congruence |]. split; [done |]. done.
  - split; [split; [done | intros _; by eexists] |].
    split; [split; [done | intros _; by eexists] |].
    split; [done |]. split; [intros; contradiction |].
    split; [intros; contradiction |].
    intros Hunset. subst provider. unfold getenv in Hg.
    rewrite Hunset in Hg. by destruct Hg.
Qed.

End Providers.

Section Searches.

Lemma slice_to_length {A} k (xs : list A) :
  Z.of_nat (List.length (Py.slice_to k xs))
  = if 0 <=? k then Z.min k (Z.of_nat (List.length xs))
    else Z.max 0 (Z.of_nat (List.length xs) + k).
Proof.
  unfold Py.slice_to. destruct (Z.leb_spec 0 k); rewrite length_take; lia.
Qed.

Lemma slice_to_prefix {A} k (xs : list A) : Py.slice_to k xs `prefix_of` xs.
Proof. unfold Py.slice_to. destruct (0 <=? k); apply prefix_take. Qed.

(** X22.  [web_search] of [tools.py] never raises: an exception of
    the search becomes an error reply.  A list of results is cut to
    its first [max_results] entries (to all but the last
    [-max_results] when that is negative); a result that is one
    string is returned whole, whatever [max_results] is. *)
Theorem tools_web_search_reply ddg_run query max_results :
  returns (Tools.web_search ddg_run query max_results)
  /\ (forall e, ddg_run query = Raise e ->
        Tools.web_search ddg_run query max_results = Ok (Tools.SearchError e))
  /\ (forall s, ddg_run query = Ok (JStr s) ->
        Tools.web_search ddg_run query max_results
        = Ok (Tools.SearchResults (JStr s)))
  /\ (forall xs, ddg_run query = Ok (JArr xs) ->
        exists ys,
          Tools.web_search ddg_run query max_results
          = Ok (Tools.SearchResults (JArr ys))
          /\ ys `prefix_of` xs
          /\ Z.of_nat (List.length ys)
             = if 0 <=? max_results
               then Z.min max_results (Z.of_nat (List.length xs))
               else Z.max 0 (Z.of_nat (List.length xs) + max_results)).
Proof.
  unfold Tools.web_search. split; [|split; [|split]].
  - destruct (ddg_run query); apply returns_ok.
  - by intros e ->.
  - by intros s ->.
  - intros xs ->. eexists. split; [reflexivity|].
    split; [apply slice_to_prefix | apply slice_to_length].
Qed.

(** X23.  [web_search] of [tools.fixed.py] answers unless the search
    package is installed and building the search object raises: that
    exception leaves the tool.  The result of the search is returned
    whole: [max_results] has no effect. *)
Theorem fixed_web_search_reply _HAS_DDG DuckDuckGoSearchRun query max_results :
  (returns (Fixed.web_search _HAS_DDG DuckDuckGoSearchRun query max_results)
   <-> _HAS_DDG = false \/ returns DuckDuckGoSearchRun)
  /\ (_HAS_DDG = false ->
      Fixed.web_search _HAS_DDG DuckDuckGoSearchRun query max_results
      = Ok Fixed.NotInstalled)
  /\ (forall run hits,
        _HAS_DDG = true -> DuckDuckGoSearchRun = Ok run -> run query = Ok hits ->
        Fixed.web_search _HAS_DDG DuckDuckGoSearchRun query max_results
        = Ok (Fixed.SearchResults hits))
  /\ (forall max_results',
        Fixed.web_search _HAS_DDG DuckDuckGoSearchRun query max_results
        = Fixed.web_search _HAS_DDG DuckDuckGoSearchRun query max_results').
Proof.
  unfold Fixed.web_search. split; [|split; [|split]].
  - destruct _HAS_DDG; cbn [negb].
    + destruct DuckDuckGoSearchRun as [run|e]; cbn [bind].
      * split; [intros _; right; apply returns_ok|intros _].
        destruct (run query); apply returns_ok.
      * split; [by intros [a Ha]|]. by intros [?|[a Ha]].
    + split; [by left | intros _; apply returns_ok].
  - by intros ->.
  - intros run hits -> -> . cbn [negb bind]. by intros ->.
  - done.
Qed.

(** X24.  [search_knowledge] of [tools.py] calls the retriever's
    [get_relevant_documants].  A retriever without a method of that
    name makes every search raise [AttributeError], whatever other
    methods it has; with one, the answer lists the first [k] documents
    the method returns, in its order, each with its text and its
    metadata. *)
Theorem search_knowledge_reply (r : Tools.retriever) query k :
  (r "get_relevant_documants" = None ->
   Tools.search_knowledge r query k = Raise AttributeError)
  /\ (forall method e,
        r "get_relevant_documants" = Some method -> method query = Raise e ->
        Tools.search_knowledge r query k = Raise e)
  /\ (forall method docs,
        r "get_relevant_documants" = Some method -> method query = Ok docs ->
        exists entries,
          Tools.search_knowledge r query k = Ok (JObj [("results", JArr entries)])
          /\ Z.of_nat (List.length entries)
             = (if 0 <=? k then Z.min k (Z.of_nat (List.length docs))
                else Z.max 0 (Z.of_nat (List.length docs) + k))
          /\ forall (i : nat) entry,
               entries !! i = Some entry ->
               exists d,
                 docs !! i = Some d
                 /\ entry = JObj [("snippet", JStr (Tools.page_content d));
                                  ("meta", Tools.metadata d)]).
Proof.
  unfold Tools.search_knowledge. split; [|split].
  - by intros ->.
  - intros method e Hr Hm. rewrite Hr. cbn [bind]. by rewrite Hm.
  - intros method docs Hr Hm. rewrite Hr. cbn [bind]. rewrite Hm.
    cbn [bind]. eexists. split; [reflexivity|].
    split; [by rewrite length_map, slice_to_length|].
    intros i entry. rewrite list_lookup_fmap.
    destruct (Py.slice_to k docs !! i) as [d|] eqn:Hd; [|done].
    intros [= <-]. exists d. split; [|done].
    destruct (slice_to_prefix k docs) as [rest Hrest].
    rewrite Hrest. by apply lookup_app_l_Some.
Qed.

End Searches.

(** ** [tools.py]: when [prayer_times] answers with timings *)

Section ToolsPrayerTimes.

Import Tools.

(** X25.  [prayer_times] of [tools.py] does its work only when no
    date is passed: with a date it returns [None] and sends nothing.
    Without one it answers with timings exactly when the body has
    code 200 and the timings under ["date"]["timings"] at its top
    level; a body with code 200 and no top-level ["date"] gives the
    error reply of [KeyError]. *)
Theorem tools_prayer_times_results net now city :
  (forall date, prayer_times net now city (Some date) = Ok None)
  /\ (forall c d timings,
        prayer_times net now city None = Ok (Some (Results c d timings))
        <-> c = city /\ d = isoformat now
            /\ exists status data code when,
                 net (timings_request city (isoformat now))
                 = Ok (Response status (Some data))
                 /\ Py.get data "code" JNull = Ok code
                 /\ is_200 code = true
                 /\ Py.getitem data "date" = Ok when
                 /\ Py.getitem when "timings" = Ok timings)
  /\ (forall status fields,
        net (timings_request city (isoformat now))
        = Ok (Response status (Some (JObj fields))) ->
        Py.assoc "code" fields = Some (JNum 200) ->
        Py.assoc "date" fields = None ->
        prayer_times net now city None = Ok (Some (Failure (KeyError "date")))).
Proof.
  split; [reflexivity|split].
  - intros c d timings. unfold prayer_times. split.
    + destruct (net (timings_request city (isoformat now)))
        as [[status [data|]]|e] eqn:Hnet;
        cbn [bind try_except response_json body]; [|discriminate..].
      destruct (Py.get data "code" JNull) as [code|e] eqn:Hcode;
        cbn [bind try_except]; [|discriminate].
      destruct (is_200 code) eqn:H200.
      * destruct (Py.getitem data "date") as [when|e] eqn:Hdate;
          cbn [bind try_except]; [|discriminate].
        destruct (Py.getitem when "timings") as [t|e] eqn:Ht;
          cbn [bind try_except]; [|discriminate].
        intros [= <- <- <-]. split; [done|]. split; [done|].
        by exists status, data, code, when.
      * destruct (Py.get data "data" JNull); cbn [bind try_except]; discriminate.
    + intros (-> & -> & status & data & code & when & -> & Hcode & H200 & Hd & Ht).
      cbn [bind try_except response_json body]. rewrite Hcode. cbn [bind].
      rewrite H200, Hd. cbn [bind]. by rewrite Ht.
  - intros status fields Hnet Hcode Hdate. unfold prayer_times. rewrite Hnet.
    cbn [bind try_except response_json body Py.get Py.getitem].
    rewrite Hcode, Hdate. reflexivity.
Qed.

End ToolsPrayerTimes.

(** ** The cafe assistant: looking an item up *)

Section ResearchAgent.

Import SmartCafe.

Lemma assoc_unmatched item_name name (pre : list (string * json)) :
  forallb (fun kv => negb (String.eqb (PyStr.lower kv.1) (PyStr.lower item_name)))
          pre = true ->
  String.eqb (PyStr.lower name) (PyStr.lower item_name) = true ->
  Py.assoc name pre = None.
Proof.
  intros Hpre Hname. induction pre as [|[k v] pre IH]; [done|].
  cbn [forallb fst] in Hpre. apply andb_prop in Hpre as [Hk Hpre].
  cbn [Py.assoc]. destruct (String.eqb_spec name k) as [->|Hne]; [|auto].
  by rewrite Hname in Hk.
Qed.

Lemma find_among_suffix item_name pre kvs :
  forallb (fun kv => negb (String.eqb (PyStr.lower kv.1) (PyStr.lower item_name)))
          pre = true ->
  find_among item_name (JObj (pre ++ kvs)) (map (fun kv => JStr kv.1) kvs)
  = Ok (from_option snd JNull
          (List.find (fun kv => String.eqb (PyStr.lower kv.1)
                                           (PyStr.lower item_name)) kvs)).
Proof.
  revert pre. induction kvs as [|[name v] kvs IH]; intros pre Hpre; [done|].
  cbn [map find_among List.find fst].
  destruct (String.eqb (PyStr.lower name) (PyStr.lower item_name)) eqn:Hname.
  - cbn [Py.getitem]. rewrite assoc_app_r, (assoc_unmatched _ _ _ Hpre Hname).
    cbn [Py.assoc]. by rewrite String.eqb_refl.
  - rewrite (cons_middle (name, v) pre kvs), (assoc_L (++)). apply IH.
    rewrite forallb_app, Hpre. cbn [forallb fst]. by rewrite Hname.
Qed.

Lemma find_menu_item_first_match_eq item_name kvs :
  _find_menu_item item_name (JObj kvs)
  = Ok (from_option snd JNull
          (List.find (fun kv => String.eqb (PyStr.lower kv.1)
                                           (PyStr.lower item_name)) kvs)).
Proof. unfold _find_menu_item. cbn [Py.iter bind]. by apply (find_among_suffix _ []). Qed.

(** X26.  [_find_menu_item] on a dictionary never raises: it returns
    the entry of the first name, in the order of the menu, that
    equals the item asked for when both are lower-cased, and [None]
    when there is no such name.  On any menu, two spellings of an item
    that differ in case only get the same result. *)
Theorem find_menu_item_first_match :
  (forall item_name kvs,
      _find_menu_item item_name (JObj kvs)
      = Ok (from_option snd JNull
              (List.find (fun kv => String.eqb (PyStr.lower kv.1)
                                               (PyStr.lower item_name)) kvs)))
  /\ (forall item_name item_name' menu_dict,
        PyStr.lower item_name = PyStr.lower item_name' ->
        _find_menu_item item_name menu_dict
        = _find_menu_item item_name' menu_dict).
Proof.
  split; [apply find_menu_item_first_match_eq|].
  intros item_name item_name' menu_dict Hlower. unfold _find_menu_item.
  destruct (Py.iter menu_dict) as [names|e]; [|done]. cbn [bind].
  induction names as [|[| | |name| |] names IH]; try done.
  cbn [find_among]. by rewrite Hlower, IH.
Qed.

Lemma strings_of_strings xs : Py.strings_of (map JStr xs) = Ok xs.
Proof.
  induction xs as [|x xs IH]; [done|]. cbn [map Py.strings_of]. by rewrite IH.
Qed.

(** X27.  The three replies of [get_ingredients] on a menu that is a
    dictionary.  The reply names the item as it was asked for, not as
    the menu spells it; an entry without ["ingredients"] makes the
    call raise [KeyError]. *)
Theorem get_ingredients_replies data kvs item_name :
  Py.get data "menu" (JObj []) = Ok (JObj kvs) ->
  let found :=
    List.find (fun kv => String.eqb (PyStr.lower kv.1) (PyStr.lower item_name))
              kvs in
  (found = None ->
   get_ingredients data item_name
   = Ok ("Sorry, I couldn't find ingredients for '" +:+ item_name +:+ "'."))
  /\ (forall name fields ingredients,
        found = Some (name, JObj fields) ->
        Py.assoc "ingredients" fields = Some (JArr (map JStr ingredients)) ->
        get_ingredients data item_name
        = Ok (item_name +:+ " ingredients: " +:+ PyStr.join ", " ingredients))
  /\ (forall name fields,
        found = Some (name, JObj fields) -> fields <> [] ->
        Py.assoc "ingredients" fields = None ->
        get_ingredients data item_name = Raise (KeyError "ingredients")).
Proof.
  intros Hmenu found. unfold get_ingredients. rewrite Hmenu. cbn [bind].
  rewrite find_menu_item_first_match_eq. fold found. cbn [bind].
  split; [|split].
  - by intros ->.
  - intros name fields ingredients -> Hing. cbn [from_option snd].
    destruct fields as [|kv fields]; [done|]. cbn [Py.truthy Py.getitem].
    rewrite Hing. cbn [bind]. unfold Py.join. cbn [Py.iter bind].
    by rewrite strings_of_strings.
  - intros name fields -> Hne Hing. cbn [from_option snd].
    destruct fields as [|kv fields]; [done|]. cbn [Py.truthy Py.getitem].
    by rewrite Hing.
Qed.

Lemma get_ingredients_replies_witness :
  get_ingredients
    (JObj [("menu",
            JObj [("Mocha", JObj [("ingredients",
                                   JArr [JStr "espresso"; JStr "milk";
                                         JStr "chocolate"])])])])
    "MOCHA"
  = Ok "MOCHA ingredients: espresso, milk, chocolate".
Proof.
  pose proof (get_ingredients_replies
                (JObj [("menu",
                        JObj [("Mocha", JObj [("ingredients",
                                               JArr [JStr "espresso"; JStr "milk";
                                                     JStr "chocolate"])])])])
                _ "MOCHA" eq_refl) as (_ & Hfound & _).
  eapply (Hfound "Mocha" _ ["espresso"; "milk"; "chocolate"]); reflexivity.
Defined.

(** X28.  The three replies of [get_price] on a menu that is a
    dictionary.  Only the first names the item asked for: for an
    entry without a price the reply prints the whole entry, and for an
    item that is not on the menu it prints [None]. *)
Theorem get_price_replies format data kvs item_name :
  Py.get data "menu" (JObj []) = Ok (JObj kvs) ->
  let found :=
    List.find (fun kv => String.eqb (PyStr.lower kv.1) (PyStr.lower item_name))
              kvs in
  (forall name fields price,
      found = Some (name, JObj fields) ->
      Py.assoc "price_usd" fields = Some price -> price <> JNull ->
      get_price format data item_name
      = Ok ("The price of " +:+ item_name +:+ " is $" +:+ format price +:+ "."))
  /\ (forall name fields,
        found = Some (name, JObj fields) -> fields <> [] ->
        from_option id JNull (Py.assoc "price_usd" fields) = JNull ->
        get_price format data item_name
        = Ok ("Sorry, I don't have the price information for "
              +:+ format (JObj fields) +:+ "."))
  /\ (found = None ->
      get_price format data item_name
      = Ok ("Sorry, I don't know the price for " +:+ format JNull +:+ ".")).
Proof.
  intros Hmenu found. unfold get_price. rewrite Hmenu. cbn [bind].
  rewrite find_menu_item_first_match_eq. fold found. cbn [bind].
  split; [|split].
  - intros name fields price -> Hprice Hne. cbn [from_option snd].
    destruct fields as [|kv fields]; [done|]. cbn [Py.truthy Py.get].
    rewrite Hprice. cbn [bind from_option id]. by destruct price.
  - intros name fields -> Hne Hprice. cbn [from_option snd].
    destruct fields as [|kv fields]; [done|]. cbn [Py.truthy Py.get].
    by rewrite Hprice.
  - by intros ->.
Qed.

Lemma get_price_replies_witness :
  let format x := match x with JNull => "None" | _ => "?" end in
  get_price format
    (JObj [("menu", JObj [("Mocha", JObj [("price_usd", JNum 4)])])]) "Latte"
  = Ok "Sorry, I don't know the price for None.".
Proof.
  intros format.
  pose proof (get_price_replies format
                (JObj [("menu", JObj [("Mocha", JObj [("price_usd", JNum 4)])])])
                _ "Latte" eq_refl) as (_ & _ & Hunknown).
  apply Hunknown. reflexivity.
Defined.

End ResearchAgent.
